(** * virtual-butler: intake -> queue -> work-order -> status pipeline

    A shallow embedding of the Go services of the repository:
    - the chat service (keyword classifier [routeDepartment], request-ID
      minting and the queue envelope built in [handleChatRequest]);
    - the work-order service (the [workOrderConsumer] loop, the [statusStore]
      projection and [handleStatus]).

    Go strings are byte strings: they are modelled as [string] (lists of
    8-bit [ascii]).  The in-memory [statusStore] map is a [gmap]; the
    keyword table is a [gmap] too, and Go's [range] over it is modelled by
    an arbitrary enumeration of its entries. *)

From Stdlib Require Import ZArith Ascii String List Lia DecimalString DecimalZ.
From stdpp Require Import gmap strings list fin_maps.

Local Open Scope string_scope.

(** ** Byte-string helpers (package [strings]) *)

Module Strings.

(** [strings.HasPrefix(s, prefix)]. *)
Fixpoint HasPrefix (s prefix : string) {struct prefix} : bool :=
  match prefix with
  | EmptyString => true
  | String p prefix' =>
      match s with
      | EmptyString => false
      | String c s' => if Ascii.eqb c p then HasPrefix s' prefix' else false
      end
  end.

(** [strings.Contains(s, substr)]: [substr] occurs at some offset of [s]. *)
Fixpoint Contains (s substr : string) : bool :=
  HasPrefix s substr ||
  match s with
  | EmptyString => false
  | String _ s' => Contains s' substr
  end.

(** [strings.TrimPrefix(s, prefix)]. *)
Fixpoint TrimPrefix (s prefix : string) {struct prefix} : string :=
  match prefix, s with
  | EmptyString, _ => s
  | String p prefix', String c s' =>
      if Ascii.eqb c p && HasPrefix s' prefix' then TrimPrefix s' prefix' else s
  | String _ _, EmptyString => s
  end.

(** Lower-casing of one ASCII byte: ['A'..'Z'] to ['a'..'z']. *)
Definition lowerByte (c : ascii) : ascii :=
  let n := nat_of_ascii c in
  if (65 <=? n)%nat && (n <=? 90)%nat then ascii_of_nat (n + 32) else c.

(** UTF-8 encodings of the two non-ASCII letters whose lower case is an ASCII
    letter: U+0130 (capital I with dot above, lower case [i]) and U+212A
    (Kelvin sign, lower case [k]). *)
Definition dottedI : string := String "196"%char (String "176"%char EmptyString).
Definition kelvin : string :=
  String "226"%char (String "132"%char (String "170"%char EmptyString)).

(** [strings.ToLower(s)], as far as the ASCII bytes of the result go.
    ASCII capitals are lowered; U+0130 and U+212A become [i] and [k]; every
    other non-ASCII rune lowers to a non-ASCII rune, whose bytes (all above
    127) are kept here as they are.  [skip] counts the continuation bytes of
    a rune already emitted. *)
Fixpoint lowerFrom (skip : nat) (s : string) : string :=
  match s with
  | EmptyString => EmptyString
  | String c s' =>
      match skip with
      | S n => lowerFrom n s'
      | O =>
          if HasPrefix s dottedI then String "i"%char (lowerFrom 1 s')
          else if HasPrefix s kelvin then String "k"%char (lowerFrom 2 s')
          else String (lowerByte c) (lowerFrom 0 s')
      end
  end.

Definition ToLower (s : string) : string := lowerFrom 0 s.

(** [s] with each of its bytes lowered: [v] is [kw] in some letter case when
    [lowerBytes v = kw]. *)
Fixpoint lowerBytes (s : string) : string :=
  match s with
  | EmptyString => EmptyString
  | String c s' => String (lowerByte c) (lowerBytes s')
  end.

Definition isASCII (c : ascii) : bool := (nat_of_ascii c <? 128)%nat.

Fixpoint asciiOnly (s : string) : bool :=
  match s with
  | EmptyString => true
  | String c s' => isASCII c && asciiOnly s'
  end.

(** The first [n] bytes of [s] are there and none of them is ASCII. *)
Fixpoint highPrefix (n : nat) (s : string) : bool :=
  match n with
  | O => true
  | S n' =>
      match s with
      | EmptyString => false
      | String c s' => negb (isASCII c) && highPrefix n' s'
      end
  end.

End Strings.

(** ** Chat service: the classifier *)

Module Chat.
Import Strings.

(** The entries of the [keywordDept] map literal. *)
Definition keywordTable : list (string * string) :=
  [ ("towel", "Housekeeping");
    ("clean", "Housekeeping");
    ("food", "Room Service");
    ("order", "Room Service");
    ("checkout", "Front Desk");
    ("wifi", "IT") ].

(** [var keywordDept = map[string]string{...}]. *)
Definition keywordDept : gmap string string := list_to_map keywordTable.

(** A [for k, dept := range keywordDept] loop visits every entry of the map
    exactly once, in an order the Go runtime chooses anew for each loop:
    [rangeOrder order] says that [order] is one such enumeration. *)
Definition rangeOrder (order : list (string * string)) : Prop :=
  order ≡ₚ map_to_list keywordDept.

(** The body of the [range] loop of [routeDepartment], run over the entries in
    the order [order]: the first entry whose keyword occurs in [lower]
    returns its department; when the loop ends, ["General"]. *)
Fixpoint rangeFirst (order : list (string * string)) (lower : string) : string :=
  match order with
  | [] => "General"
  | (k, dept) :: rest =>
      if Contains lower k then dept else rangeFirst rest lower
  end.

(** [func routeDepartment(text string) string], under the enumeration
    [order] chosen for its [range] loop. *)
Definition routeDepartment (order : list (string * string)) (text : string) : string :=
  rangeFirst order (ToLower text).

(** The departments of the data model. *)
Definition departments : list string :=
  [ "Housekeeping"; "Room Service"; "Front Desk"; "IT"; "General" ].

End Chat.

(** ** Chat service: request IDs and the queue envelope *)

Module Fmt.

(** The verb [%d] of [fmt.Sprintf] on an integer: decimal digits, with a
    leading [-] for a negative number. *)
Definition formatD (z : Z) : string := NilEmpty.string_of_int (Z.to_int z).

(** The double-quote byte. *)
Definition dq : ascii := "034"%char.

(** [s] between double quotes, as the format writes ["%s"] (the verb [%s]
    copies the bytes of its argument unchanged). *)
Definition quoted (s : string) : string :=
  String dq (s +:+ String dq EmptyString).

End Fmt.

Module Intake.
Import Strings Chat Fmt.

(** [type ChatRequest struct]. *)
Record ChatRequest := {
  GuestID : string;
  Text : string;
  VoiceTranscript : string
}.

(** [type ChatResponse struct]. *)
Record ChatResponse := {
  RequestID : string;
  Status : string;
  Department : string
}.

(** [fmt.Sprintf("%d-%d", time.Now().UnixNano(), rand.Intn(10000))], where
    [nanos] is what the clock returned and [rnd] what the generator did. *)
Definition newRequestID (nanos rnd : Z) : string :=
  formatD nanos +:+ "-" +:+ formatD rnd.

(** The message body of [handleChatRequest]: the format
    [{"requestID":"%s","guestID":"%s","department":"%s","request":"%s"}]
    applied to the four strings. *)
Definition envelopeBody (requestID guestID department request : string) : string :=
  "{" +:+ quoted "requestID" +:+ ":" +:+ quoted requestID +:+ "," +:+
  quoted "guestID" +:+ ":" +:+ quoted guestID +:+ "," +:+
  quoted "department" +:+ ":" +:+ quoted department +:+ "," +:+
  quoted "request" +:+ ":" +:+ quoted request +:+ "}".

(** What one call of [handleChatRequest] observes from its environment: the
    clock, the random generator and the enumeration of the keyword map. *)
Record Observed := {
  nanos : Z;
  rnd : Z;
  order : list (string * string)
}.

(** [handleChatRequest] after the request body has been decoded: the body of
    the message handed to the sender, and the response. *)
Definition handleChatRequest (o : Observed) (req : ChatRequest) : string * ChatResponse :=
  let requestID := newRequestID (nanos o) (rnd o) in
  let department := routeDepartment (order o) (Text req +:+ " " +:+ VoiceTranscript req) in
  (envelopeBody requestID (GuestID req) department (Text req),
   {| RequestID := requestID; Status := "received"; Department := department |}).

(** The request IDs minted by a sequence of calls, from what each observed. *)
Definition requestIDs (calls : list (Z * Z)) : list string :=
  map (fun c => newRequestID (fst c) (snd c)) calls.

End Intake.

(** ** Package [encoding/json], as the consumer uses it

    [json.Unmarshal] first checks that the whole input is one well-formed
    JSON text and then stores the members of the object into the fields of
    the destination.  The model follows the grammar of the library's
    scanner; inside string literals, bytes above 127 are copied as they are
    (the library also replaces ill-formed UTF-8 by U+FFFD). *)

Module Json.
Import Fmt.

#[local] Set Warnings "-register-all".

Inductive JSON :=
  | JNull
  | JBool (b : bool)
  | JNumber (literal : string)
  | JString (s : string)
  | JArray (elements : list JSON)
  | JObject (members : list (string * JSON)).

Definition isSpace (c : ascii) : bool :=
  Ascii.eqb c " " || Ascii.eqb c "009" || Ascii.eqb c "010" || Ascii.eqb c "013".

Fixpoint skipSpace (s : string) : string :=
  match s with
  | String c s' => if isSpace c then skipSpace s' else s
  | EmptyString => s
  end.

Definition isDigit (c : ascii) : bool :=
  let n := nat_of_ascii c in (48 <=? n)%nat && (n <=? 57)%nat.

Definition hexValue (c : ascii) : option N :=
  let n := N_of_ascii c in
  if (48 <=? n)%N && (n <=? 57)%N then Some (n - 48)%N
  else if (97 <=? n)%N && (n <=? 102)%N then Some (n - 87)%N
  else if (65 <=? n)%N && (n <=? 70)%N then Some (n - 55)%N
  else None.

(** The pieces of a string literal: a byte, or the 16-bit unit of a
    [\uXXXX] escape. *)
Inductive Piece :=
  | Byte (c : ascii)
  | Unit16 (u : N).

(** The pieces of the literal up to its closing quote, and what follows it.
    Control bytes (below 32) may not occur unescaped. *)
Fixpoint scanString (s : string) : option (list Piece * string) :=
  match s with
  | EmptyString => None
  | String c s1 =>
      if Ascii.eqb c dq then Some ([], s1)
      else if Ascii.eqb c "\" then
        match s1 with
        | EmptyString => None
        | String e s2 =>
            let simple (b : ascii) :=
              match scanString s2 with
              | Some (ps, rest) => Some (Byte b :: ps, rest)
              | None => None
              end in
            if Ascii.eqb e dq then simple dq
            else if Ascii.eqb e "\" then simple "\"%char
            else if Ascii.eqb e "/" then simple "/"%char
            else if Ascii.eqb e "b" then simple "008"%char
            else if Ascii.eqb e "f" then simple "012"%char
            else if Ascii.eqb e "n" then simple "010"%char
            else if Ascii.eqb e "r" then simple "013"%char
            else if Ascii.eqb e "t" then simple "009"%char
            else if Ascii.eqb e "u" then
              match s2 with
              | String h1 (String h2 (String h3 (String h4 s6))) =>
                  match hexValue h1, hexValue h2, hexValue h3, hexValue h4 with
                  | Some a, Some b, Some c', Some d =>
                      match scanString s6 with
                      | Some (ps, rest) =>
                          Some (Unit16 (((a * 16 + b) * 16 + c') * 16 + d)%N :: ps, rest)
                      | None => None
                      end
                  | _, _, _, _ => None
                  end
              | _ => None
              end
            else None
        end
      else if (nat_of_ascii c <? 32)%nat then None
      else
        match scanString s1 with
        | Some (ps, rest) => Some (Byte c :: ps, rest)
        | None => None
        end
  end.

(** UTF-8 encoding of a code point. *)
Definition byteOf (n : N) : ascii := ascii_of_N n.

Definition encodeRune (r : N) : string :=
  if (r <? 128)%N then String (byteOf r) EmptyString
  else if (r <? 2048)%N then
    String (byteOf (192 + r / 64)) (String (byteOf (128 + r mod 64)) EmptyString)
  else if (r <? 65536)%N then
    String (byteOf (224 + r / 4096))
      (String (byteOf (128 + (r / 64) mod 64))
         (String (byteOf (128 + r mod 64)) EmptyString))
  else
    String (byteOf (240 + r / 262144))
      (String (byteOf (128 + (r / 4096) mod 64))
         (String (byteOf (128 + (r / 64) mod 64))
            (String (byteOf (128 + r mod 64)) EmptyString))).

Definition isHighSurrogate (u : N) : bool := (55296 <=? u)%N && (u <? 56320)%N.
Definition isLowSurrogate (u : N) : bool := (56320 <=? u)%N && (u <? 57344)%N.
Definition replacementChar : N := 65533%N.

(** The bytes of an unquoted literal: a surrogate pair makes one rune, a
    surrogate on its own makes U+FFFD. *)
Fixpoint unquotePieces (ps : list Piece) : string :=
  match ps with
  | [] => EmptyString
  | Byte c :: rest => String c (unquotePieces rest)
  | Unit16 u :: rest =>
      if isHighSurrogate u then
        match rest with
        | Unit16 v :: rest' =>
            if isLowSurrogate v
            then encodeRune (65536 + (u - 55296) * 1024 + (v - 56320))%N
                   +:+ unquotePieces rest'
            else encodeRune replacementChar +:+ unquotePieces rest
        | _ => encodeRune replacementChar +:+ unquotePieces rest
        end
      else if isLowSurrogate u then encodeRune replacementChar +:+ unquotePieces rest
      else encodeRune u +:+ unquotePieces rest
  end.

(** The bytes that stand for themselves in a string literal: no double
    quote, no backslash, no control byte. *)
Definition plainByte (c : ascii) : bool :=
  negb (Ascii.eqb c dq) && negb (Ascii.eqb c "\") && negb (nat_of_ascii c <? 32)%nat.

Fixpoint plain (s : string) : bool :=
  match s with
  | EmptyString => true
  | String c s' => plainByte c && plain s'
  end.

Fixpoint bytes (s : string) : list Piece :=
  match s with
  | EmptyString => []
  | String c s' => Byte c :: bytes s'
  end.

(** A string literal whose opening quote has been read. *)
Definition parseString (s : string) : option (string * string) :=
  match scanString s with
  | Some (ps, rest) => Some (unquotePieces ps, rest)
  | None => None
  end.

(** The longest prefix of digits, and the rest. *)
Fixpoint spanDigits (s : string) : string * string :=
  match s with
  | String c s' =>
      if isDigit c then let '(ds, rest) := spanDigits s' in (String c ds, rest)
      else (EmptyString, s)
  | EmptyString => (EmptyString, s)
  end.

Definition nonEmpty (s : string) : bool :=
  match s with EmptyString => false | String _ _ => true end.

(** Optional exponent of a number. *)
Definition parseExponent (s : string) : option (string * string) :=
  match s with
  | String c s1 =>
      if Ascii.eqb c "e" || Ascii.eqb c "E" then
        let '(sign, s2) :=
          match s1 with
          | String g s2 =>
              if Ascii.eqb g "+" || Ascii.eqb g "-"
              then (String g EmptyString, s2) else (EmptyString, s1)
          | EmptyString => (EmptyString, s1)
          end in
        let '(ds, rest) := spanDigits s2 in
        if nonEmpty ds then Some (String c (sign +:+ ds), rest) else None
      else Some (EmptyString, s)
  | EmptyString => Some (EmptyString, s)
  end.

(** Optional fraction of a number, then its exponent. *)
Definition parseFraction (s : string) : option (string * string) :=
  match s with
  | String "." s1 =>
      let '(ds, s2) := spanDigits s1 in
      if nonEmpty ds then
        match parseExponent s2 with
        | Some (e, rest) => Some (String "." (ds +:+ e), rest)
        | None => None
        end
      else None
  | _ => parseExponent s
  end.

(** The integer part (after an optional minus sign): [0], or a digit from 1
    to 9 followed by digits. *)
Definition parseUnsigned (s : string) : option (string * string) :=
  match s with
  | String c s1 =>
      if Ascii.eqb c "0" then
        match parseFraction s1 with
        | Some (f, rest) => Some (String c f, rest)
        | None => None
        end
      else if isDigit c then
        let '(ds, s2) := spanDigits s1 in
        match parseFraction s2 with
        | Some (f, rest) => Some (String c (ds +:+ f), rest)
        | None => None
        end
      else None
  | EmptyString => None
  end.

Definition parseNumber (s : string) : option (string * string) :=
  match s with
  | String "-" s1 =>
      match parseUnsigned s1 with
      | Some (n, rest) => Some (String "-" n, rest)
      | None => None
      end
  | _ => parseUnsigned s
  end.

(** [s] without the prefix [lit], when it starts with it. *)
Fixpoint stripLiteral (lit s : string) : option string :=
  match lit with
  | EmptyString => Some s
  | String l lit' =>
      match s with
      | String c s' => if Ascii.eqb c l then stripLiteral lit' s' else None
      | EmptyString => None
      end
  end.

(** One JSON value and what follows it.  [fuel] bounds the number of nested
    calls; [decode] below supplies more than any text needs. *)
Fixpoint parseValue (fuel : nat) (s : string) : option (JSON * string) :=
  match fuel with
  | O => None
  | S fuel' =>
      match skipSpace s with
      | EmptyString => None
      | String c s1 as s0 =>
          if Ascii.eqb c "{" then
            match skipSpace s1 with
            | String "}" s2 => Some (JObject [], s2)
            | _ =>
                match parseMembers fuel' s1 with
                | Some (ms, rest) => Some (JObject ms, rest)
                | None => None
                end
            end
          else if Ascii.eqb c "[" then
            match skipSpace s1 with
            | String "]" s2 => Some (JArray [], s2)
            | _ =>
                match parseElements fuel' s1 with
                | Some (vs, rest) => Some (JArray vs, rest)
                | None => None
                end
            end
          else if Ascii.eqb c dq then
            match parseString s1 with
            | Some (str, rest) => Some (JString str, rest)
            | None => None
            end
          else if Ascii.eqb c "t" then
            match stripLiteral "true" s0 with
            | Some rest => Some (JBool true, rest)
            | None => None
            end
          else if Ascii.eqb c "f" then
            match stripLiteral "false" s0 with
            | Some rest => Some (JBool false, rest)
            | None => None
            end
          else if Ascii.eqb c "n" then
            match stripLiteral "null" s0 with
            | Some rest => Some (JNull, rest)
            | None => None
            end
          else
            match parseNumber s0 with
            | Some (n, rest) => Some (JNumber n, rest)
            | None => None
            end
      end
  end

(** The members of an object after its opening brace, up to and including
    the closing brace: [key : value], separated by commas. *)
with parseMembers (fuel : nat) (s : string) : option (list (string * JSON) * string) :=
  match fuel with
  | O => None
  | S fuel' =>
      match skipSpace s with
      | String c s1 =>
          if Ascii.eqb c dq then
            match parseString s1 with
            | Some (key, s2) =>
                match skipSpace s2 with
                | String ":" s3 =>
                    match parseValue fuel' s3 with
                    | Some (v, s4) =>
                        match skipSpace s4 with
                        | String "," s5 =>
                            match parseMembers fuel' s5 with
                            | Some (ms, rest) => Some ((key, v) :: ms, rest)
                            | None => None
                            end
                        | String "}" s5 => Some ([(key, v)], s5)
                        | _ => None
                        end
                    | None => None
                    end
                | _ => None
                end
            | None => None
            end
          else None
      | EmptyString => None
      end
  end

(** The elements of an array after its opening bracket, up to and including
    the closing bracket. *)
with parseElements (fuel : nat) (s : string) : option (list JSON * string) :=
  match fuel with
  | O => None
  | S fuel' =>
      match parseValue fuel' s with
      | Some (v, s1) =>
          match skipSpace s1 with
          | String "," s2 =>
              match parseElements fuel' s2 with
              | Some (vs, rest) => Some (v :: vs, rest)
              | None => None
              end
          | String "]" s2 => Some ([v], s2)
          | _ => None
          end
      | None => None
      end
  end.

(** The whole text is one value, with only white space around it.  The
    fuel is twice the length of the text and two more: a call of the parser
    that nests in another starts at a later byte, or at the same byte one
    step further down. *)
Definition decode (data : string) : option JSON :=
  match parseValue (2 * String.length data + 2) data with
  | Some (v, rest) =>
      match skipSpace rest with
      | EmptyString => Some v
      | String _ _ => None
      end
  | None => None
  end.

(** Upper-casing of an ASCII byte, as the folding of member names does. *)
Definition upperByte (c : ascii) : ascii :=
  let n := nat_of_ascii c in
  if (97 <=? n)%nat && (n <=? 122)%nat then ascii_of_nat (n - 32) else c.

(** UTF-8 encoding of U+017F (long s), which folds to [S]; U+212A (Kelvin
    sign) folds to [K]. *)
Definition longS : string := String "197"%char (String "191"%char EmptyString).

(** The folded form of a member name, as far as its ASCII bytes go: no other
    non-ASCII rune folds to an ASCII one. *)
Fixpoint foldFrom (skip : nat) (s : string) : string :=
  match s with
  | EmptyString => EmptyString
  | String c s' =>
      match skip with
      | S n => foldFrom n s'
      | O =>
          if Strings.HasPrefix s longS then String "S"%char (foldFrom 1 s')
          else if Strings.HasPrefix s Strings.kelvin then String "K"%char (foldFrom 2 s')
          else String (upperByte c) (foldFrom 0 s')
      end
  end.

Definition foldName (s : string) : string := foldFrom 0 s.

(** A member name selects the field tagged [tag] when the two are equal, or
    equal after folding. *)
Definition matchesField (key tag : string) : bool :=
  String.eqb key tag || String.eqb (foldName key) (foldName tag).

(** The errors of [json.Unmarshal]. *)
Inductive UnmarshalError :=
  | SyntaxError
  | UnmarshalTypeError.

End Json.

(** ** Work-order service *)

(** The anonymous [payload] struct of the consumer loop. *)
Module Payload.

Record t := {
  RequestID : string;
  GuestID : string;
  Department : string;
  Request : string
}.

(** A freshly declared [payload]: every field is the empty string. *)
Definition zero : t :=
  {| RequestID := ""; GuestID := ""; Department := ""; Request := "" |}.

End Payload.

(** [type WorkOrder struct]. *)
Module WO.

(** [time.Time] values are instants on the clock's scale. *)
Definition Time := Z.

(** [primitive.ObjectID]; [NilObjectID] is the zero value. *)
Definition ObjectID := N.
Definition NilObjectID : ObjectID := 0%N.

Record TimestampsT := {
  Created : Time;
  Updated : Time
}.

Record t := {
  ID : ObjectID;
  GuestID : string;
  Department : string;
  Request : string;
  Status : string;
  Timestamps : TimestampsT
}.

End WO.

Module WorkOrders.
Import Strings Json.

(** Storing the member [key : v] into the payload, as [json.Unmarshal] does
    for a struct whose fields are all strings: a string is stored in the
    field that the name selects, [null] changes nothing, any other value is
    a type error; a name that selects no field is skipped. *)
Definition storeMember (acc : Payload.t * option UnmarshalError) (m : string * JSON)
  : Payload.t * option UnmarshalError :=
  let '(p, err) := acc in
  let '(key, v) := m in
  let store (set : string -> Payload.t) :=
    match v with
    | JString str => (set str, err)
    | JNull => (p, err)
    | _ => (p, match err with Some e => Some e | None => Some UnmarshalTypeError end)
    end in
  if matchesField key "requestID" then
    store (fun x => {| Payload.RequestID := x; Payload.GuestID := Payload.GuestID p;
                       Payload.Department := Payload.Department p;
                       Payload.Request := Payload.Request p |})
  else if matchesField key "guestID" then
    store (fun x => {| Payload.RequestID := Payload.RequestID p; Payload.GuestID := x;
                       Payload.Department := Payload.Department p;
                       Payload.Request := Payload.Request p |})
  else if matchesField key "department" then
    store (fun x => {| Payload.RequestID := Payload.RequestID p;
                       Payload.GuestID := Payload.GuestID p;
                       Payload.Department := x; Payload.Request := Payload.Request p |})
  else if matchesField key "request" then
    store (fun x => {| Payload.RequestID := Payload.RequestID p;
                       Payload.GuestID := Payload.GuestID p;
                       Payload.Department := Payload.Department p; Payload.Request := x |})
  else (p, err).

(** [json.Unmarshal(msg.Body, &payload)] on the freshly declared payload:
    the error, or the payload when there is none. *)
Definition Unmarshal (data : string) : UnmarshalError + Payload.t :=
  match decode data with
  | None => inl SyntaxError
  | Some JNull => inr Payload.zero
  | Some (JObject members) =>
      match fold_left storeMember members (Payload.zero, None) with
      | (_, Some e) => inl e
      | (p, None) => inr p
      end
  | Some _ => inl UnmarshalTypeError
  end.

(** A message received from the queue. *)
Record Message := {
  MessageID : nat;
  Body : string
}.

(** The lines the loop writes to the log. *)
Inductive LogLine :=
  | ReceiveError
  | InvalidMessageBody (e : UnmarshalError)
  | InsertError
  | WorkOrderCreated (id : WO.ObjectID).

(** What the consumer has done so far: the [statusStore] map, the messages
    passed to [receiver.CompleteMessage], the documents passed to
    [coll.InsertOne], and the log; the last three newest first. *)
Record State := {
  statusStore : gmap string WO.t;
  completed : list Message;
  insertCalls : list WO.t;
  logged : list LogLine
}.

(** The service at start-up: [statusStore = make(map[string]*WorkOrder)]. *)
Definition initial : State :=
  {| statusStore := ∅; completed := []; insertCalls := []; logged := [] |}.

(** What the environment answers during one iteration of the loop:
    [receiver.ReceiveMessage] ([None]: an error), the two readings of
    [time.Now()], and [coll.InsertOne] ([None]: an error, otherwise the
    inserted ID). *)
Record Iteration := {
  received : option Message;
  now1 : WO.Time;
  now2 : WO.Time;
  inserted : option WO.ObjectID
}.

(** The work order built from a decoded payload: the struct literal, then
    the two assignments to its timestamps. *)
Definition newWorkOrder (payload : Payload.t) (t1 t2 : WO.Time) : WO.t :=
  {| WO.ID := WO.NilObjectID;
     WO.GuestID := Payload.GuestID payload;
     WO.Department := Payload.Department payload;
     WO.Request := Payload.Request payload;
     WO.Status := "Pending";
     WO.Timestamps := {| WO.Created := t1; WO.Updated := t2 |} |}.

Definition log (l : LogLine) (s : State) : State :=
  {| statusStore := statusStore s; completed := completed s;
     insertCalls := insertCalls s; logged := l :: logged s |}.

(** [receiver.CompleteMessage(ctx, msg, nil)]. *)
Definition CompleteMessage (msg : Message) (s : State) : State :=
  {| statusStore := statusStore s; completed := msg :: completed s;
     insertCalls := insertCalls s; logged := logged s |}.

(** The call [coll.InsertOne(ctx, wo)]. *)
Definition InsertOne (wo : WO.t) (s : State) : State :=
  {| statusStore := statusStore s; completed := completed s;
     insertCalls := wo :: insertCalls s; logged := logged s |}.

(** [statusStore[requestID] = &wo].  [wo] is declared inside the loop body,
    so every iteration stores a pointer to a work order of its own, which
    nothing writes to afterwards: the map is modelled as holding values. *)
Definition setStatus (requestID : string) (wo : WO.t) (s : State) : State :=
  {| statusStore := <[requestID := wo]> (statusStore s); completed := completed s;
     insertCalls := insertCalls s; logged := logged s |}.

(** One iteration of the [for] loop of [workOrderConsumer]. *)
Definition iteration (s : State) (it : Iteration) : State :=
  match received it with
  | None => log ReceiveError s
  | Some msg =>
      match Unmarshal (Body msg) with
      | inl e => CompleteMessage msg (log (InvalidMessageBody e) s)
      | inr payload =>
          let wo := newWorkOrder payload (now1 it) (now2 it) in
          let s1 := InsertOne wo s in
          let s2 :=
            match inserted it with
            | None => log InsertError s1
            | Some id =>
                setStatus (Payload.RequestID payload) wo (log (WorkOrderCreated id) s1)
            end in
          CompleteMessage msg s2
      end
  end.

(** The loop of [workOrderConsumer] never ends; [workOrderConsumer s its] is
    the state after the iterations [its], run one after the other. *)
Definition workOrderConsumer (s : State) (its : list Iteration) : State :=
  fold_left iteration its s.

(** The answers of [handleStatus]. *)
Inductive StatusResponse :=
  | NotFound
  | OK (wo : WO.t).

Definition statusPrefix : string := "/api/v1/workorder/status/".

(** [handleStatus] on a request for [path]: it reads the map and leaves the
    state as it is. *)
Definition handleStatus (s : State) (path : string) : StatusResponse :=
  let requestID := TrimPrefix path statusPrefix in
  match statusStore s !! requestID with
  | None => NotFound
  | Some resp => OK resp
  end.

(** The work-order service runs the consumer loop and the status handlers
    side by side; the writer holds [statusLock] for its one assignment and a
    reader for its one lookup, so a run of the service is a sequence of
    iterations of the loop and of status requests. *)
Inductive Operation :=
  | Consume (it : Iteration)
  | Query (path : string).

(** The state after an operation; a status request only reads the map. *)
Definition perform (s : State) (op : Operation) : State :=
  match op with
  | Consume it => iteration s it
  | Query _ => s
  end.

Definition run (s : State) (ops : list Operation) : State :=
  fold_left perform ops s.

(** The invariant of the status map: every work order in it is pending. *)
Definition allPending (s : State) : Prop :=
  forall k wo, statusStore s !! k = Some wo -> WO.Status wo = "Pending".

End WorkOrders.

(** ** Sample inputs *)

Module Samples.
Import Intake WorkOrders.

(** Two intake calls that read the same nanosecond and draw the same number. *)
Definition sameInstant : list (Z * Z) :=
  [(1700000000000000000, 7); (1700000000000000000, 7)]%Z.

(** Three intake calls that differ in the nanosecond or in the number. *)
Definition apart : list (Z * Z) :=
  [(1700000000000000000, 7); (1700000000000000000, 8); (1700000000000000001, 7)]%Z.

(** What an intake call observes. *)
Definition observed : Observed :=
  {| nanos := 1700000000000000000; rnd := 7; order := Chat.keywordTable |}.

Definition towels : ChatRequest :=
  {| Intake.GuestID := "g1"; Text := "I need clean towels"; VoiceTranscript := "" |}.

(** A request whose text holds a pair of double quotes. *)
Definition quoting : ChatRequest :=
  {| Intake.GuestID := "g1"; Text := "say " +:+ Fmt.quoted "hi";
     VoiceTranscript := "" |}.

(** A request whose text holds a backslash. *)
Definition backslash : ChatRequest :=
  {| Intake.GuestID := "g1"; Text := "C:\temp"; VoiceTranscript := "" |}.

(** The message that carries the envelope of [towels], and its payload. *)
Definition towelsMessage : Message :=
  {| MessageID := 1; Body := fst (handleChatRequest observed towels) |}.

Definition towelsPayload : Payload.t :=
  {| Payload.RequestID := "1700000000000000000-7"; Payload.GuestID := "g1";
     Payload.Department := "Housekeeping"; Payload.Request := "I need clean towels" |}.

(** A message whose body is not JSON. *)
Definition malformedMessage : Message :=
  {| MessageID := 2; Body := "not json" |}.

(** Iterations of the loop: the insert succeeds, the insert fails, the body
    is malformed. *)
Definition stored : Iteration :=
  {| received := Some towelsMessage; now1 := 100%Z; now2 := 101%Z; inserted := Some 1%N |}.

Definition insertFails : Iteration :=
  {| received := Some towelsMessage; now1 := 100%Z; now2 := 101%Z; inserted := None |}.

Definition dropped : Iteration :=
  {| received := Some malformedMessage; now1 := 100%Z; now2 := 101%Z; inserted := Some 2%N |}.

End Samples.

(** ** Package [net/http], as the handlers use it *)

Module Http.

(** What the handlers read of a [*http.Request]: the method, [r.URL.Path],
    [r.Header.Get("Authorization")] (empty when the header is absent) and
    the body. *)
Record Request := {
  Method : string;
  Path : string;
  Authorization : string;
  RequestBody : string
}.

(** An [http.ResponseWriter]: the header map of [w.Header()], the status and
    the headers that went out with the first [WriteHeader] ([None] until
    then), and the body written so far. *)
Record ResponseWriter := {
  Header : gmap string string;
  Sent : option (nat * gmap string string);
  Written : string
}.

Definition NewRecorder : ResponseWriter :=
  {| Header := ∅; Sent := None; Written := "" |}.

(** [w.Header().Set(key, value)]. *)
Definition HeaderSet (key value : string) (w : ResponseWriter) : ResponseWriter :=
  {| Header := <[key := value]> (Header w); Sent := Sent w; Written := Written w |}.

(** [w.Header().Del(key)]. *)
Definition HeaderDel (key : string) (w : ResponseWriter) : ResponseWriter :=
  {| Header := delete key (Header w); Sent := Sent w; Written := Written w |}.

(** [w.WriteHeader(code)]: the first call sends the status with the headers
    as they are then; a later call does nothing. *)
Definition WriteHeader (code : nat) (w : ResponseWriter) : ResponseWriter :=
  match Sent w with
  | Some _ => w
  | None => {| Header := Header w; Sent := Some (code, Header w); Written := Written w |}
  end.

(** [w.Write(data)]: sends status 200 first when no status has been sent. *)
Definition Write (data : string) (w : ResponseWriter) : ResponseWriter :=
  let w' := WriteHeader 200 w in
  {| Header := Header w'; Sent := Sent w'; Written := Written w' +:+ data |}.

Definition newline : string := String "010"%char EmptyString.

(** [http.Error(w, msg, code)]. *)
Definition Error (w : ResponseWriter) (msg : string) (code : nat) : ResponseWriter :=
  let w1 := HeaderDel "Content-Length" w in
  let w2 := HeaderSet "Content-Type" "text/plain; charset=utf-8" w1 in
  let w3 := HeaderSet "X-Content-Type-Options" "nosniff" w2 in
  Write (msg +:+ newline) (WriteHeader code w3).

Definition StatusNoContent : nat := 204.
Definition StatusBadRequest : nat := 400.
Definition StatusUnauthorized : nat := 401.
Definition StatusNotFound : nat := 404.

(** What the client gets once the handler has returned: the status, the
    headers and the body; a handler that sent no status answers 200. *)
Record Response := {
  StatusCode : nat;
  Headers : gmap string string;
  ResponseBody : string
}.

Definition finish (w : ResponseWriter) : Response :=
  match Sent w with
  | Some (code, h) => {| StatusCode := code; Headers := h; ResponseBody := Written w |}
  | None => {| StatusCode := 200; Headers := Header w; ResponseBody := Written w |}
  end.

(** An [http.Handler] of a service whose state is of type [St]. *)
Definition Handler (St : Type) : Type :=
  Request -> St * ResponseWriter -> St * ResponseWriter.

End Http.

(** ** Package [common]: the middlewares *)

Module Common.
Import Strings Http.

(** [func CORSMiddleware(next http.Handler) http.Handler]. *)
Definition CORSMiddleware {St} (next : Handler St) : Handler St :=
  fun r '(s, w) =>
    let w1 := HeaderSet "Access-Control-Allow-Origin" "*" w in
    let w2 := HeaderSet "Access-Control-Allow-Methods" "GET, POST, OPTIONS" w1 in
    let w3 := HeaderSet "Access-Control-Allow-Headers" "Authorization, Content-Type" w2 in
    if String.eqb (Method r) "OPTIONS" then (s, WriteHeader StatusNoContent w3)
    else next r (s, w3).

(** [func JWTAuthMiddleware(next http.Handler) http.Handler].  [parse] stands
    for the call of [jwt.Parse] with the key function that returns
    [jwtSecret]: it is [true] when the error is [nil] and [token.Valid]. *)
Definition JWTAuthMiddleware {St} (parse : string -> bool) (next : Handler St)
  : Handler St :=
  fun r '(s, w) =>
    let authHeader := Authorization r in
    if negb (HasPrefix authHeader "Bearer ") then
      (s, Error w "Unauthorized" StatusUnauthorized)
    else
      let tokenStr := TrimPrefix authHeader "Bearer " in
      if negb (parse tokenStr) then (s, Error w "Unauthorized" StatusUnauthorized)
      else next r (s, w).

End Common.

(** ** Package [encoding/json]: the encoder and the stream decoder *)

Module JsonEncode.
Import Fmt.

Definition hexDigit (n : nat) : ascii :=
  match String.get n "0123456789abcdef" with
  | Some c => c
  | None => "0"%char
  end.

(** One byte of a string inside its quotes, as [Encoder.Encode] writes it
    (with the escaping of HTML characters that is on by default): quote and
    backslash get a backslash, the control bytes their short escape or
    [\u00XX], and so do [<], [>] and [&].  Bytes above 127 are copied (the
    library also rewrites ill-formed UTF-8, U+2028 and U+2029). *)
Definition escapeByte (c : ascii) : string :=
  let n := nat_of_ascii c in
  if Ascii.eqb c dq || Ascii.eqb c "\" then String "\" (String c EmptyString)
  else if (n =? 8)%nat then "\b"
  else if (n =? 12)%nat then "\f"
  else if (n =? 10)%nat then "\n"
  else if (n =? 13)%nat then "\r"
  else if (n =? 9)%nat then "\t"
  else if (n <? 32)%nat || Ascii.eqb c "<" || Ascii.eqb c ">" || Ascii.eqb c "&" then
    "\u00" +:+ String (hexDigit (n / 16)) (String (hexDigit (n mod 16)) EmptyString)
  else String c EmptyString.

Fixpoint escapeBytes (s : string) : string :=
  match s with
  | EmptyString => EmptyString
  | String c s' => escapeByte c +:+ escapeBytes s'
  end.

(** A Go string as a JSON string literal. *)
Definition encodeString (s : string) : string :=
  String dq (escapeBytes s +:+ String dq EmptyString).

(** A member [name : value] of an encoded struct. *)
Definition member (name value : string) : string :=
  quoted name +:+ ":" +:+ encodeString value.

End JsonEncode.

(** ** Chat service: the HTTP handler *)

Module ChatHTTP.
Import Strings Chat Fmt Intake Json JsonEncode Http.

(** Why [decoder.Decode] fails. *)
Inductive BodyError :=
  | BadSyntax
  | BadType
  | UnknownField (name : string).

(** Storing one member into the [ChatRequest], with
    [DisallowUnknownFields]: a name that selects no field is an error. *)
Definition storeRequestMember (acc : ChatRequest * option BodyError) (m : string * JSON)
  : ChatRequest * option BodyError :=
  let '(req, err) := acc in
  let '(key, v) := m in
  let keep (e : BodyError) := match err with Some e0 => Some e0 | None => Some e end in
  let store (set : string -> ChatRequest) :=
    match v with
    | JString str => (set str, err)
    | JNull => (req, err)
    | _ => (req, keep BadType)
    end in
  if matchesField key "guestID" then
    store (fun x => {| Intake.GuestID := x; Text := Text req;
                       VoiceTranscript := VoiceTranscript req |})
  else if matchesField key "text" then
    store (fun x => {| Intake.GuestID := Intake.GuestID req; Text := x;
                       VoiceTranscript := VoiceTranscript req |})
  else if matchesField key "voiceTranscript" then
    store (fun x => {| Intake.GuestID := Intake.GuestID req; Text := Text req;
                       VoiceTranscript := x |})
  else (req, keep (UnknownField key)).

Definition zeroRequest : ChatRequest :=
  {| Intake.GuestID := ""; Text := ""; VoiceTranscript := "" |}.

(** [decoder.Decode(&req)] on a decoder over the request body: the first
    JSON value of the body is read (what follows it is left unread) and
    stored into the zero [ChatRequest]. *)
Definition decodeRequest (body : string) : BodyError + ChatRequest :=
  match parseValue (2 * String.length body + 2) body with
  | None => inl BadSyntax
  | Some (JNull, _) => inr zeroRequest
  | Some (JObject members, _) =>
      match fold_left storeRequestMember members (zeroRequest, None) with
      | (_, Some e) => inl e
      | (req, None) => inr req
      end
  | Some (_, _) => inl BadType
  end.

(** [common.DecodeJSONBody(w, r, &req)]: on an error it answers 400 and
    returns false ([None] here). *)
Definition DecodeJSONBody (w : ResponseWriter) (r : Request)
  : ResponseWriter * option ChatRequest :=
  match decodeRequest (RequestBody r) with
  | inl _ => (Error w "Invalid request body" StatusBadRequest, None)
  | inr req => (w, Some req)
  end.

(** [json.NewEncoder(w).Encode(resp)] for a [*ChatResponse]: the object of
    its fields, [department] left out when empty, and a newline. *)
Definition encodeResponse (resp : ChatResponse) : string :=
  "{" +:+ member "requestID" (Intake.RequestID resp) +:+ "," +:+
  member "status" (Status resp) +:+
  (if String.eqb (Department resp) "" then ""
   else "," +:+ member "department" (Department resp)) +:+
  "}" +:+ newline.

(** The state of the chat service as far as its handler goes: the bodies of
    the messages handed to [sbSender.SendMessage] (each in a goroutine of
    its own), newest first. *)
Record ServiceState := {
  published : list string
}.

Definition publish (body : string) (s : ServiceState) : ServiceState :=
  {| published := body :: published s |}.

(** [func handleChatRequest(w http.ResponseWriter, r *http.Request)], with
    what the call observes of clock, random generator and map order. *)
Definition handleChatRequest (o : Observed) : Handler ServiceState :=
  fun r '(s, w) =>
    match DecodeJSONBody w r with
    | (w', None) => (s, w')
    | (w', Some req) =>
        let '(body, resp) := Intake.handleChatRequest o req in
        (publish body s,
         Write (encodeResponse resp) (HeaderSet "Content-Type" "application/json" w'))
    end.

(** The handler that [main] registers for [/api/v1/chat/request]. *)
Definition chatHandler (parse : string -> bool) (o : Observed) : Handler ServiceState :=
  Common.CORSMiddleware (Common.JWTAuthMiddleware parse (handleChatRequest o)).

End ChatHTTP.

(** ** Work-order service: the HTTP handler *)

Module WorkOrderHTTP.
Import Strings Http WorkOrders.

(** [func handleStatus(w http.ResponseWriter, r *http.Request)].  [encode]
    stands for the JSON text that [json.NewEncoder(w).Encode] writes for a
    work order, without its final newline. *)
Definition handleStatus (encode : WO.t -> string) : Handler State :=
  fun r '(s, w) =>
    match WorkOrders.handleStatus s (Path r) with
    | NotFound => (s, Error w "Not found" StatusNotFound)
    | OK resp =>
        (s, Write (encode resp +:+ newline) (HeaderSet "Content-Type" "application/json" w))
    end.

(** The handler that [main] registers for [/api/v1/workorder/status/]. *)
Definition statusHandler (parse : string -> bool) (encode : WO.t -> string)
  : Handler State :=
  Common.CORSMiddleware (Common.JWTAuthMiddleware parse (handleStatus encode)).

End WorkOrderHTTP.

(** ** The chatbot service *)

Module Chatbot.
Import Strings Fmt Json JsonEncode Http.

(** [type ChatRequest struct]. *)
Record ChatRequest := {
  Message : string
}.

(** [type ChatResponse struct]. *)
Record ChatResponse := {
  ID : string;
  Status : string;
  Reply : string
}.

(** [func generateID() string], from what clock and generator returned. *)
Definition generateID (nanos rnd : Z) : string :=
  formatD nanos +:+ "-" +:+ formatD rnd.

(** The time of day that [time.Now()] shows. *)
Record Clock := {
  hour : nat;
  minute : nat;
  second : nat
}.

Definition twoDigits (n : nat) : string :=
  formatD (Z.of_nat (n / 10)) +:+ formatD (Z.of_nat (n mod 10)).

(** [time.Now().Format("15:04:05")]. *)
Definition formatClock (now : Clock) : string :=
  twoDigits (hour now) +:+ ":" +:+ twoDigits (minute now) +:+ ":" +:+ twoDigits (second now).

(** [func simpleNLPRouting(msg string) string]: the cases of the [switch]
    are tried from top to bottom. *)
Definition simpleNLPRouting (now : Clock) (msg : string) : string :=
  let lower := ToLower msg in
  if Contains lower "hello" then "Hello! How can I help you today?"
  else if Contains lower "weather" then "The weather is sunny."
  else if Contains lower "time" then formatClock now
  else "Sorry, I didn't understand that.".

(** [json.NewDecoder(r.Body).Decode(&req)]: members other than [message]
    are skipped. *)
Definition storeMessage (acc : ChatRequest * bool) (m : string * JSON)
  : ChatRequest * bool :=
  let '(req, failed) := acc in
  let '(key, v) := m in
  if matchesField key "message" then
    match v with
    | JString str => ({| Message := str |}, failed)
    | JNull => (req, failed)
    | _ => (req, true)
    end
  else (req, failed).

Definition decodeRequest (body : string) : option ChatRequest :=
  match parseValue (2 * String.length body + 2) body with
  | None => None
  | Some (JNull, _) => Some {| Message := "" |}
  | Some (JObject members, _) =>
      match fold_left storeMessage members ({| Message := "" |}, false) with
      | (_, true) => None
      | (req, false) => Some req
      end
  | Some (_, _) => None
  end.

(** [json.NewEncoder(w).Encode(resp)] for a [*ChatResponse]: [reply] is left
    out when empty. *)
Definition encodeResponse (resp : ChatResponse) : string :=
  "{" +:+ member "id" (ID resp) +:+ "," +:+ member "status" (Status resp) +:+
  (if String.eqb (Reply resp) "" then "" else "," +:+ member "reply" (Reply resp)) +:+
  "}" +:+ newline.

(** The [statusStore] map of the chatbot. *)
Record State := {
  statusStore : gmap string ChatResponse
}.

Definition initial : State := {| statusStore := ∅ |}.

(** What one call of [handleRequest] observes. *)
Record Observed := {
  nanos : Z;
  rnd : Z;
  now : Clock
}.

(** [func handleRequest(w http.ResponseWriter, r *http.Request)]. *)
Definition handleRequest (o : Observed) : Handler State :=
  fun r '(s, w) =>
    match decodeRequest (RequestBody r) with
    | None => (s, Error w "Invalid request" StatusBadRequest)
    | Some req =>
        let id := generateID (nanos o) (rnd o) in
        let reply := simpleNLPRouting (now o) (Message req) in
        let resp := {| ID := id; Status := "done"; Reply := reply |} in
        ({| statusStore := <[id := resp]> (statusStore s) |},
         Write (encodeResponse resp) (HeaderSet "Content-Type" "application/json" w))
    end.

Definition statusPrefix : string := "/api/v1/status/".

(** [func handleStatus(w http.ResponseWriter, r *http.Request)]. *)
Definition handleStatus : Handler State :=
  fun r '(s, w) =>
    let id := TrimPrefix (Path r) statusPrefix in
    match statusStore s !! id with
    | None => (s, Error w "Not found" StatusNotFound)
    | Some resp =>
        (s, Write (encodeResponse resp) (HeaderSet "Content-Type" "application/json" w))
    end.

End Chatbot.

(** ** What an iteration of the consumer leaves behind *)

Module Trace.
Import WorkOrders.

(** The work order that the iteration passes to [coll.InsertOne]: one for
    every received message whose body decodes. *)
Definition built (it : Iteration) : option WO.t :=
  match received it with
  | Some msg =>
      match Unmarshal (Body msg) with
      | inr payload => Some (newWorkOrder payload (now1 it) (now2 it))
      | inl _ => None
      end
  | None => None
  end.

(** The entry that the iteration writes into [statusStore]: one when the
    body decodes and the insert succeeds. *)
Definition writes (it : Iteration) : option (string * WO.t) :=
  match received it with
  | Some msg =>
      match Unmarshal (Body msg), inserted it with
      | inr payload, Some _ =>
          Some (Payload.RequestID payload, newWorkOrder payload (now1 it) (now2 it))
      | _, _ => None
      end
  | None => None
  end.

End Trace.

(** ** More sample inputs *)

Module Scenarios.
Import Intake WorkOrders Http.

(** The message of [Samples.towelsMessage] delivered a second time, later. *)
Definition redelivered : Iteration :=
  {| received := Some Samples.towelsMessage; now1 := 200%Z; now2 := 201%Z;
     inserted := Some 2%N |}.

(** A receive error. *)
Definition receiveFails : Iteration :=
  {| received := None; now1 := 300%Z; now2 := 301%Z; inserted := None |}.

(** A message whose body is JSON but holds no member of the envelope. *)
Definition stray : Iteration :=
  {| received := Some {| MessageID := 3;
                         Body := "{" +:+ Fmt.quoted "room" +:+ ":" +:+ Fmt.quoted "12" +:+ "}" |};
     now1 := 400%Z; now2 := 401%Z; inserted := Some 3%N |}.

(** A token check that accepts one token. *)
Definition parse (tokenStr : string) : bool := String.eqb tokenStr "good-token".

(** A CORS preflight request: no credentials, no body. *)
Definition preflight : Request :=
  {| Method := "OPTIONS"; Path := "/api/v1/chat/request"; Authorization := "";
     RequestBody := "" |}.

(** The JSON text of a chat request with guest ID and text. *)
Definition chatBody (guestID text : string) : string :=
  "{" +:+ Fmt.quoted "guestID" +:+ ":" +:+ Fmt.quoted guestID +:+ "," +:+
  Fmt.quoted "text" +:+ ":" +:+ Fmt.quoted text +:+ "}".

(** A chat request without credentials, and one with a rejected token. *)
Definition anonymous : Request :=
  {| Method := "POST"; Path := "/api/v1/chat/request"; Authorization := "";
     RequestBody := chatBody "g1" "I need clean towels" |}.

Definition badToken : Request :=
  {| Method := "POST"; Path := "/api/v1/chat/request";
     Authorization := "Bearer stale-token";
     RequestBody := chatBody "g1" "I need clean towels" |}.

(** An accepted chat request. *)
Definition towelsPost : Request :=
  {| Method := "POST"; Path := "/api/v1/chat/request";
     Authorization := "Bearer good-token";
     RequestBody := chatBody "g1" "I need clean towels" |}.

(** A chat request with a member that [ChatRequest] has no field for. *)
Definition roomBody : string :=
  "{" +:+ Fmt.quoted "guestID" +:+ ":" +:+ Fmt.quoted "g1" +:+ "," +:+
  Fmt.quoted "room" +:+ ":" +:+ Fmt.quoted "12" +:+ "}".

Definition roomPost : Request :=
  {| Method := "POST"; Path := "/api/v1/chat/request";
     Authorization := "Bearer good-token"; RequestBody := roomBody |}.

(** Status requests, with and without credentials. *)
Definition statusGet (requestID : string) : Request :=
  {| Method := "GET"; Path := statusPrefix +:+ requestID;
     Authorization := "Bearer good-token"; RequestBody := "" |}.

Definition statusProbe (requestID : string) : Request :=
  {| Method := "GET"; Path := statusPrefix +:+ requestID;
     Authorization := ""; RequestBody := "" |}.

(** A stand-in for the JSON text of a work order. *)
Definition encode (wo : WO.t) : string :=
  "{" +:+ Fmt.quoted "status" +:+ ":" +:+ Fmt.quoted (WO.Status wo) +:+ "}".

(** An empty chat service. *)
Definition idle : ChatHTTP.ServiceState := {| ChatHTTP.published := [] |}.

(** A chat request whose keyword is in the voice transcript only. *)
Definition spoken : ChatRequest :=
  {| Intake.GuestID := "g2"; Text := "please help";
     VoiceTranscript := "the WiFi is down" |}.

(** Two calls of the chatbot that mint the same ID, at different times of
    day. *)
Definition morning : Chatbot.Observed :=
  {| Chatbot.nanos := 1700000000000000000; Chatbot.rnd := 7;
     Chatbot.now := {| Chatbot.hour := 9; Chatbot.minute := 5; Chatbot.second := 0 |} |}.

Definition evening : Chatbot.Observed :=
  {| Chatbot.nanos := 1700000000000000000; Chatbot.rnd := 7;
     Chatbot.now := {| Chatbot.hour := 21; Chatbot.minute := 30; Chatbot.second := 15 |} |}.

Definition botPost (message : string) : Request :=
  {| Method := "POST"; Path := "/api/v1/request"; Authorization := "";
     RequestBody := "{" +:+ Fmt.quoted "message" +:+ ":" +:+ Fmt.quoted message +:+ "}" |}.

Definition botStatus (id : string) : Request :=
  {| Method := "GET"; Path := Chatbot.statusPrefix +:+ id; Authorization := "";
     RequestBody := "" |}.

End Scenarios.

(** * Properties *)

(** ** Byte strings *)

Section ByteStrings.
Import Strings.

Lemma append_cons x (a b : string) : String x a +:+ b = String x (a +:+ b).
Proof. reflexivity. Qed.

Lemma append_char x (a : string) : String x "" +:+ a = String x a.
Proof. reflexivity. Qed.

Lemma append_assoc (a b c : string) : (a +:+ b) +:+ c = a +:+ (b +:+ c).
Proof.
  induction a as [|x a IH]; [reflexivity|].
  rewrite !append_cons, IH. reflexivity.
Qed.

Lemma HasPrefix_append a b : HasPrefix (a +:+ b) a = true.
Proof.
  induction a as [|x a IH]; [reflexivity|].
  rewrite append_cons. simpl. rewrite Ascii.eqb_refl. exact IH.
Qed.

Lemma Contains_prefix s kw : HasPrefix s kw = true -> Contains s kw = true.
Proof. intros H. destruct s; simpl; rewrite H; reflexivity. Qed.

Lemma Contains_cons c s kw : Contains s kw = true -> Contains (String c s) kw = true.
Proof. intros H. simpl. rewrite H. apply orb_true_r. Qed.

(** Lowering a byte to an ASCII byte starts from an ASCII byte. *)
Lemma lowerByte_isASCII c : isASCII (lowerByte c) = true -> isASCII c = true.
Proof.
  unfold lowerByte, isASCII.
  destruct ((65 <=? nat_of_ascii c)%nat && (nat_of_ascii c <=? 90)%nat) eqn:E;
    [|trivial].
  intros _. apply andb_prop in E as [_ E].
  apply Nat.leb_le in E. apply Nat.ltb_lt. lia.
Qed.

Lemma lowerBytes_asciiOnly v : asciiOnly (lowerBytes v) = true -> asciiOnly v = true.
Proof.
  induction v as [|c v IH]; simpl; [trivial|].
  intros H. apply andb_prop in H as [Hc Hv].
  rewrite (lowerByte_isASCII c Hc), (IH Hv). reflexivity.
Qed.

(** An ASCII byte starts neither of the two special runes. *)
Lemma HasPrefix_special_ascii c s :
  isASCII c = true ->
  HasPrefix (String c s) dottedI = false /\ HasPrefix (String c s) kelvin = false.
Proof.
  intros Hc. simpl.
  split; match goal with |- context [Ascii.eqb c ?x] =>
                           destruct (Ascii.eqb_spec c x) as [->|]; [discriminate | reflexivity]
         end.
Qed.

(** Inside ASCII text, [ToLower] lowers byte by byte. *)
Lemma lowerFrom_ascii v post :
  asciiOnly v = true -> lowerFrom 0 (v +:+ post) = lowerBytes v +:+ lowerFrom 0 post.
Proof.
  induction v as [|c v IH]; [reflexivity|].
  simpl asciiOnly. intros H. apply andb_prop in H as [Hc Hv].
  rewrite append_cons. cbn [lowerFrom lowerBytes].
  destruct (HasPrefix_special_ascii c (v +:+ post) Hc) as [-> ->].
  rewrite (IH Hv), append_cons. reflexivity.
Qed.

(** The bytes that [ToLower] skips after a special rune are not ASCII, so
    an occurrence of ASCII text comes out lowered wherever it stands. *)
Lemma lowerFrom_contains v post : asciiOnly v = true ->
  forall pre skip,
    highPrefix skip (pre +:+ v +:+ post) = true ->
    Contains (lowerFrom skip (pre +:+ v +:+ post)) (lowerBytes v) = true.
Proof.
  intros Hv. induction pre as [|c pre IH]; intros skip Hskip.
  - change ("" +:+ v +:+ post) with (v +:+ post) in *.
    destruct v as [|c v].
    + destruct (lowerFrom skip ("" +:+ post)); reflexivity.
    + destruct skip as [|n].
      * rewrite (lowerFrom_ascii _ post Hv).
        apply Contains_prefix, HasPrefix_append.
      * rewrite append_cons in Hskip. simpl in Hskip, Hv.
        apply andb_prop in Hv as [Hc _]. rewrite Hc in Hskip. discriminate.
  - rewrite append_cons in *. destruct skip as [|n].
    + cbn [lowerFrom].
      destruct (HasPrefix (String c (pre +:+ v +:+ post)) dottedI) eqn:E1;
        [|destruct (HasPrefix (String c (pre +:+ v +:+ post)) kelvin) eqn:E2];
        apply Contains_cons, IH.
      * simpl in E1. destruct (Ascii.eqb c "196"); [|discriminate].
        destruct (pre +:+ v +:+ post) as [|c2 r]; [discriminate|].
        destruct (Ascii.eqb_spec c2 "176") as [->|]; [reflexivity | discriminate].
      * simpl in E2. destruct (Ascii.eqb c "226"); [|discriminate].
        destruct (pre +:+ v +:+ post) as [|c2 [|c3 r]]; try discriminate.
        -- destruct (Ascii.eqb c2 "132"); discriminate.
        -- destruct (Ascii.eqb_spec c2 "132") as [->|]; [|discriminate].
           destruct (Ascii.eqb_spec c3 "170") as [->|]; [reflexivity | discriminate].
      * reflexivity.
    + cbn [lowerFrom]. apply IH. simpl in Hskip.
      apply andb_prop in Hskip as [_ H]. exact H.
Qed.

(** A keyword that stands in a text in some letter case stands in the
    lowered text. *)
Lemma ToLower_contains pre v post kw :
  lowerBytes v = kw -> asciiOnly kw = true ->
  Contains (ToLower (pre +:+ v +:+ post)) kw = true.
Proof.
  intros <- Hkw. apply lowerFrom_contains; [|reflexivity].
  apply lowerBytes_asciiOnly. assumption.
Qed.

End ByteStrings.

(** ** The classifier *)

Section Classifier.
Import Strings Chat.

Lemma keywordTable_NoDup : NoDup keywordTable.*1.
Proof. apply (bool_decide_unpack _). vm_compute. reflexivity. Qed.

(** The enumerations of the map are the permutations of its literal. *)
Lemma rangeOrder_table order : rangeOrder order <-> order ≡ₚ keywordTable.
Proof.
  unfold rangeOrder, keywordDept.
  rewrite (map_to_list_to_map keywordTable keywordTable_NoDup). reflexivity.
Qed.

Lemma keywordDept_lookup k d : keywordDept !! k = Some d <-> (k, d) ∈ keywordTable.
Proof.
  unfold keywordDept. symmetry. apply elem_of_list_to_map, keywordTable_NoDup.
Qed.

Lemma rangeOrder_elem order k d :
  rangeOrder order -> ((k, d) ∈ order <-> keywordDept !! k = Some d).
Proof.
  intros Hord. apply rangeOrder_table in Hord.
  rewrite keywordDept_lookup, Hord. reflexivity.
Qed.

(** What the loop returns: the department of an entry whose keyword occurs,
    or ["General"] when no keyword of the enumeration occurs. *)
Lemma rangeFirst_cases order lower :
  (exists k, (k, rangeFirst order lower) ∈ order /\ Contains lower k = true) \/
  (rangeFirst order lower = "General" /\
   forall k d, (k, d) ∈ order -> Contains lower k = false).
Proof.
  induction order as [|[k d] rest IH]; simpl.
  - right. split; [reflexivity|]. intros k d H. inversion H.
  - destruct (Contains lower k) eqn:Hk.
    + left. exists k. split; [left | assumption].
    + destruct IH as [[k' [Hin Hc]] | [Hg Hno]].
      * left. exists k'. split; [right; assumption | assumption].
      * right. split; [assumption|].
        intros k' d' Hin. apply elem_of_cons in Hin as [Heq | Hin].
        -- inversion Heq; subst. assumption.
        -- eapply Hno; eassumption.
Qed.

(** The same, read on the map. *)
Lemma routeDepartment_cases order text :
  rangeOrder order ->
  (exists k, keywordDept !! k = Some (routeDepartment order text) /\
             Contains (ToLower text) k = true) \/
  (routeDepartment order text = "General" /\
   forall k d, keywordDept !! k = Some d -> Contains (ToLower text) k = false).
Proof.
  intros Hord. unfold routeDepartment.
  destruct (rangeFirst_cases order (ToLower text)) as [[k [Hin Hc]] | [Hg Hno]].
  - left. exists k. split; [|assumption]. apply (rangeOrder_elem order); assumption.
  - right. split; [assumption|]. intros k d Hk.
    apply (Hno k d). apply (rangeOrder_elem order); assumption.
Qed.

Lemma reverse_rangeOrder : rangeOrder (reverse keywordTable).
Proof. apply rangeOrder_table. apply reverse_Permutation. Qed.

Lemma table_rangeOrder : rangeOrder keywordTable.
Proof. apply rangeOrder_table. reflexivity. Qed.

(** Every department of the table is one of the data model's. *)
Lemma keywordDept_departments k d : keywordDept !! k = Some d -> d ∈ departments.
Proof.
  intros H. apply keywordDept_lookup in H. unfold keywordTable, departments in *.
  repeat (apply elem_of_cons in H as [H | H]; [inversion H; subst; set_solver|]).
  inversion H.
Qed.

(** The result is a department of the table or ["General"]. *)
Lemma routeDepartment_departments order text :
  rangeOrder order -> routeDepartment order text ∈ departments.
Proof.
  intros Hord.
  destruct (routeDepartment_cases order text Hord) as [[k [Hk Hc]] | [Hg Hno]].
  - eapply keywordDept_departments; eassumption.
  - rewrite Hg. unfold departments. set_solver.
Qed.

(** C4, counterexample: a text with keywords of two departments is classified
    differently by two enumerations of the keyword map. *)
Lemma routeDepartment_order_dependent :
  rangeOrder keywordTable /\ rangeOrder (reverse keywordTable) /\
  routeDepartment keywordTable "towel and food" = "Housekeeping" /\
  routeDepartment (reverse keywordTable) "towel and food" = "Room Service".
Proof.
  split; [apply table_rangeOrder|]. split; [apply reverse_rangeOrder|].
  split; vm_compute; reflexivity.
Qed.

(** C4, amended: under any two enumerations of the keyword map,
    [routeDepartment] returns the same department for a text all of whose
    occurring keywords belong to one department. *)
Theorem routeDepartment_same_department text o1 o2 :
  rangeOrder o1 -> rangeOrder o2 ->
  (forall k1 d1 k2 d2,
      keywordDept !! k1 = Some d1 -> keywordDept !! k2 = Some d2 ->
      Contains (ToLower text) k1 = true -> Contains (ToLower text) k2 = true ->
      d1 = d2) ->
  routeDepartment o1 text = routeDepartment o2 text.
Proof.
  intros H1 H2 Hsame.
  destruct (routeDepartment_cases o1 text H1) as [[k1 [Hk1 Hc1]] | [Hg1 Hno1]];
    destruct (routeDepartment_cases o2 text H2) as [[k2 [Hk2 Hc2]] | [Hg2 Hno2]].
  - eapply Hsame; eassumption.
  - rewrite (Hno2 _ _ Hk1) in Hc1. discriminate.
  - rewrite (Hno1 _ _ Hk2) in Hc2. discriminate.
  - congruence.
Qed.

Lemma routeDepartment_same_department_witness :
  routeDepartment keywordTable "I need CLEAN Towels"
  = routeDepartment (reverse keywordTable) "I need CLEAN Towels".
Proof.
  apply (routeDepartment_same_department "I need CLEAN Towels"
           keywordTable (reverse keywordTable)).
  - apply table_rangeOrder.
  - apply reverse_rangeOrder.
  - intros k1 d1 k2 d2 Hk1 Hk2.
    apply keywordDept_lookup in Hk1. apply keywordDept_lookup in Hk2.
    unfold keywordTable in Hk1, Hk2.
    repeat (apply elem_of_cons in Hk1 as [Hk1 | Hk1];
            [inversion Hk1; subst; clear Hk1|]);
      try (inversion Hk1; fail);
      repeat (apply elem_of_cons in Hk2 as [Hk2 | Hk2];
              [inversion Hk2; subst; clear Hk2|]);
      try (inversion Hk2; fail);
      vm_compute; congruence.
Defined.

(** C5, counterexample: a text with ["Towel"] in it that an enumeration of
    the keyword map sends to Room Service. *)
Lemma towel_not_always_housekeeping :
  rangeOrder (reverse keywordTable) /\
  "Towels and FOOD" = "" +:+ "Towel" +:+ "s and FOOD" /\
  lowerBytes "Towel" = "towel" /\
  routeDepartment (reverse keywordTable) "Towels and FOOD" = "Room Service".
Proof.
  split; [apply reverse_rangeOrder|]. repeat split; vm_compute; reflexivity.
Qed.

(** C5, amended: under every enumeration of the keyword map, a text that
    contains ["towel"] in some letter case, and whose lower case contains no
    keyword of another department, is sent to Housekeeping; a text whose
    lower case contains no keyword is sent to General; and the result is
    always one of the five departments. *)
Theorem routeDepartment_spec order text :
  rangeOrder order ->
  (forall pre v post,
      text = pre +:+ v +:+ post -> lowerBytes v = "towel" ->
      (forall k d,
          keywordDept !! k = Some d -> d <> "Housekeeping" ->
          Contains (ToLower text) k = false) ->
      routeDepartment order text = "Housekeeping") /\
  ((forall k d, keywordDept !! k = Some d -> Contains (ToLower text) k = false) ->
   routeDepartment order text = "General") /\
  routeDepartment order text ∈ departments.
Proof.
  intros Hord.
  split; [|split; [|apply routeDepartment_departments; assumption]];
    destruct (routeDepartment_cases order text Hord) as [[k [Hk Hc]] | [Hg Hno]].
  - intros pre v post _ _ Hother.
    destruct (decide (routeDepartment order text = "Housekeeping")) as [|Hne];
      [assumption|].
    rewrite (Hother _ _ Hk Hne) in Hc. discriminate.
  - intros pre v post -> Hv _.
    assert (Ht : keywordDept !! "towel" = Some "Housekeeping")
      by (apply keywordDept_lookup; left).
    specialize (Hno _ _ Ht).
    rewrite (ToLower_contains pre v post "towel" Hv eq_refl) in Hno. discriminate.
  - intros Hnone. rewrite (Hnone _ _ Hk) in Hc. discriminate.
  - intros _. assumption.
Qed.

Lemma routeDepartment_spec_witness :
  routeDepartment (reverse keywordTable) "Fresh TOWELS, please" = "Housekeeping".
Proof.
  apply (proj1 (routeDepartment_spec (reverse keywordTable) "Fresh TOWELS, please"
                  reverse_rangeOrder) "Fresh " "TOWEL" "S, please").
  - reflexivity.
  - reflexivity.
  - intros k d Hk Hne. apply keywordDept_lookup in Hk. unfold keywordTable in Hk.
    repeat (apply elem_of_cons in Hk as [Hk | Hk];
            [inversion Hk; subst; clear Hk; try congruence; vm_compute; reflexivity|]).
    inversion Hk.
Defined.

End Classifier.

(** ** Request IDs *)

Section RequestIDs.
Import Strings Fmt Intake.

Lemma formatD_inj a b : formatD a = formatD b -> a = b.
Proof.
  unfold formatD. intros H. apply DecimalZ.to_int_inj.
  assert (Hs : Some (Z.to_int a) = Some (Z.to_int b)).
  { rewrite <- !NilEmpty.isi. rewrite H. reflexivity. }
  congruence.
Qed.

Lemma string_of_uint_no_dash d : Contains (NilEmpty.string_of_uint d) "-" = false.
Proof. induction d; simpl; try reflexivity; exact IHd. Qed.

(** A number that is not negative is printed without a minus sign. *)
Lemma formatD_no_dash r : (0 <= r)%Z -> Contains (formatD r) "-" = false.
Proof.
  intros Hr. unfold formatD. destruct r as [|p|p]; simpl.
  - reflexivity.
  - apply string_of_uint_no_dash.
  - lia.
Qed.

Lemma Contains_dash_append a b : Contains (a +:+ String "-" b) "-" = true.
Proof.
  induction a as [|c a IH]; simpl.
  - reflexivity.
  - rewrite IH. apply orb_true_r.
Qed.

(** The text after the last minus sign determines the text before it. *)
Lemma append_dash_inj a a' b b' :
  Contains b "-" = false -> Contains b' "-" = false ->
  a +:+ String "-" b = a' +:+ String "-" b' -> a = a' /\ b = b'.
Proof.
  intros Hb Hb'. revert a'.
  induction a as [|c a IH]; intros [|c' a']; simpl; intros Heq.
  - inversion Heq. split; reflexivity.
  - inversion Heq; subst. rewrite Contains_dash_append in Hb. discriminate.
  - inversion Heq; subst. rewrite Contains_dash_append in Hb'. discriminate.
  - inversion Heq; subst. destruct (IH a') as [-> ->]; [assumption|].
    split; reflexivity.
Qed.

(** Two request IDs are equal only when both the clock reading and the
    random number are. *)
Lemma newRequestID_inj t1 r1 t2 r2 :
  (0 <= r1)%Z -> (0 <= r2)%Z ->
  newRequestID t1 r1 = newRequestID t2 r2 -> t1 = t2 /\ r1 = r2.
Proof.
  intros H1 H2 Heq. unfold newRequestID in Heq.
  apply append_dash_inj in Heq as [Ht Hr]; try (apply formatD_no_dash; assumption).
  split; apply formatD_inj; assumption.
Qed.

(** C7, counterexample: two calls that read the same nanosecond and draw
    the same number mint the same request ID. *)
Lemma requestIDs_collide :
  (Z.of_nat (length Samples.sameInstant) <= 10000)%Z /\
  (forall t r, (t, r) ∈ Samples.sameInstant -> (0 <= r < 10000)%Z) /\
  ~ NoDup (requestIDs Samples.sameInstant).
Proof.
  split; [simpl; lia|]. split.
  - intros t r H. unfold Samples.sameInstant in H.
    repeat (apply elem_of_cons in H as [H | H]; [inversion H; subst; lia|]).
    inversion H.
  - intros Hnd. vm_compute in Hnd. apply NoDup_cons in Hnd as [Hnin _].
    apply Hnin. left.
Qed.

(** C7, amended: calls no two of which observe both the same clock reading
    and the same random number mint pairwise distinct request IDs, however
    many they are. *)
Theorem requestIDs_distinct (calls : list (Z * Z)) :
  (forall t r, (t, r) ∈ calls -> (0 <= r < 10000)%Z) ->
  NoDup calls ->
  NoDup (requestIDs calls).
Proof.
  induction calls as [|[t r] calls IH]; intros Hrange Hnd; simpl.
  - constructor.
  - apply NoDup_cons in Hnd as [Hnin Hnd]. apply NoDup_cons. split.
    + intros Hin. apply list_elem_of_In, in_map_iff in Hin as [[t' r'] [Heq Hin]].
      apply list_elem_of_In in Hin. simpl in Heq.
      apply newRequestID_inj in Heq as [-> ->].
      * contradiction.
      * apply (Hrange t' r'). right. assumption.
      * apply (Hrange t r). left.
    + apply IH; [|assumption]. intros t' r' Hin. apply (Hrange t' r'). right. assumption.
Qed.

Lemma requestIDs_distinct_witness :
  NoDup (requestIDs Samples.apart).
Proof.
  apply requestIDs_distinct.
  - intros t r H. unfold Samples.apart in H.
    repeat (apply elem_of_cons in H as [H | H]; [inversion H; subst; lia|]).
    inversion H.
  - apply (bool_decide_unpack _). vm_compute. reflexivity.
Defined.

End RequestIDs.

(** ** The consumer loop *)

Section Consumer.
Import WorkOrders.

Lemma towels_decoded : Unmarshal (Body Samples.towelsMessage) = inr Samples.towelsPayload.
Proof. vm_compute. reflexivity. Qed.

Lemma malformed_rejected : Unmarshal (Body Samples.malformedMessage) = inl Json.SyntaxError.
Proof. vm_compute. reflexivity. Qed.

(** No amount of fuel makes the malformed body parse. *)
Lemma malformed_never_parses fuel :
  Json.parseValue fuel (Body Samples.malformedMessage) = None.
Proof. destruct fuel; reflexivity. Qed.

(** A JSON text without the members of the envelope does decode: to the
    payload whose fields are all empty. *)
Lemma empty_object_decoded : Unmarshal "{}" = inr Payload.zero.
Proof. vm_compute. reflexivity. Qed.

(** The loop goes on with the next iteration from the state the last one
    left. *)
Lemma workOrderConsumer_cons s it rest :
  workOrderConsumer s (it :: rest) = workOrderConsumer (iteration s it) rest.
Proof. reflexivity. Qed.

(** C1, counterexample: the message of an iteration whose insert fails is
    completed. *)
Lemma insert_failure_completes :
  received Samples.insertFails = Some Samples.towelsMessage /\
  Unmarshal (Body Samples.towelsMessage) = inr Samples.towelsPayload /\
  inserted Samples.insertFails = None /\
  Samples.towelsMessage ∈ completed (iteration initial Samples.insertFails).
Proof.
  split; [reflexivity|]. split; [apply towels_decoded|]. split; [reflexivity|].
  unfold iteration. simpl received. cbv iota beta. rewrite towels_decoded.
  simpl. left.
Qed.

(** C1, amended: when the body decodes and the insert fails, the consumer
    logs the error, leaves the status map as it is, completes the message
    all the same, and goes on with the loop. *)
Theorem insert_failure_logged_and_completed s it msg payload :
  received it = Some msg ->
  Unmarshal (Body msg) = inr payload ->
  inserted it = None ->
  logged (iteration s it) = InsertError :: logged s /\
  statusStore (iteration s it) = statusStore s /\
  completed (iteration s it) = msg :: completed s /\
  forall rest,
    workOrderConsumer s (it :: rest) = workOrderConsumer (iteration s it) rest.
Proof.
  intros Hrecv Hdec Hins.
  repeat split; try (intros rest; apply workOrderConsumer_cons);
    unfold iteration; rewrite Hrecv, Hdec, Hins; reflexivity.
Qed.

Lemma insert_failure_logged_and_completed_witness :
  logged (iteration initial Samples.insertFails) = [InsertError] /\
  statusStore (iteration initial Samples.insertFails) = ∅ /\
  completed (iteration initial Samples.insertFails) = [Samples.towelsMessage] /\
  forall rest,
    workOrderConsumer initial (Samples.insertFails :: rest)
    = workOrderConsumer (iteration initial Samples.insertFails) rest.
Proof.
  apply (insert_failure_logged_and_completed initial Samples.insertFails
           Samples.towelsMessage Samples.towelsPayload).
  - reflexivity.
  - vm_compute. reflexivity.
  - reflexivity.
Defined.

(** C6: when the body does not decode, the consumer completes the message,
    calls no insert, leaves the status map as it is, and goes on with the
    loop. *)
Theorem malformed_completed_and_dropped s it msg e :
  received it = Some msg ->
  Unmarshal (Body msg) = inl e ->
  completed (iteration s it) = msg :: completed s /\
  insertCalls (iteration s it) = insertCalls s /\
  statusStore (iteration s it) = statusStore s /\
  forall rest,
    workOrderConsumer s (it :: rest) = workOrderConsumer (iteration s it) rest.
Proof.
  intros Hrecv Hdec.
  repeat split; try (intros rest; apply workOrderConsumer_cons);
    unfold iteration; rewrite Hrecv, Hdec; reflexivity.
Qed.

Lemma malformed_completed_and_dropped_witness :
  completed (iteration initial Samples.dropped) = [Samples.malformedMessage] /\
  insertCalls (iteration initial Samples.dropped) = [] /\
  statusStore (iteration initial Samples.dropped) = ∅ /\
  forall rest,
    workOrderConsumer initial (Samples.dropped :: rest)
    = workOrderConsumer (iteration initial Samples.dropped) rest.
Proof.
  apply (malformed_completed_and_dropped initial Samples.dropped
           Samples.malformedMessage Json.SyntaxError).
  - reflexivity.
  - vm_compute. reflexivity.
Defined.

(** C3, counterexample: no reading of a work order gives back the request ID
    of the payload it was built from; two payloads that differ in it alone
    build the same work order. *)
Lemma work_order_forgets_requestID :
  ~ exists requestID : WO.t -> string,
      forall payload t1 t2,
        requestID (newWorkOrder payload t1 t2) = Payload.RequestID payload.
Proof.
  intros [f Hf].
  pose proof (Hf Samples.towelsPayload 0%Z 0%Z) as H1.
  pose proof (Hf {| Payload.RequestID := "other";
                    Payload.GuestID := Payload.GuestID Samples.towelsPayload;
                    Payload.Department := Payload.Department Samples.towelsPayload;
                    Payload.Request := Payload.Request Samples.towelsPayload |}
                 0%Z 0%Z) as H2.
  unfold newWorkOrder in H1, H2. simpl in H1, H2. rewrite H1 in H2. discriminate.
Qed.

(** C3, amended: the work order does not depend on the request ID of the
    payload; when the insert succeeds, the request ID is the key under which
    the work order is stored in the status map. *)
Theorem requestID_keys_the_status_map s it msg payload id :
  received it = Some msg ->
  Unmarshal (Body msg) = inr payload ->
  inserted it = Some id ->
  statusStore (iteration s it) !! Payload.RequestID payload
  = Some (newWorkOrder payload (now1 it) (now2 it)) /\
  forall other t1 t2,
    Payload.GuestID other = Payload.GuestID payload ->
    Payload.Department other = Payload.Department payload ->
    Payload.Request other = Payload.Request payload ->
    newWorkOrder other t1 t2 = newWorkOrder payload t1 t2.
Proof.
  intros Hrecv Hdec Hins. split.
  - unfold iteration. rewrite Hrecv, Hdec, Hins. simpl. apply lookup_insert_eq.
  - intros other t1 t2 Hg Hd Hr. unfold newWorkOrder. rewrite Hg, Hd, Hr. reflexivity.
Qed.

Lemma requestID_keys_the_status_map_witness :
  statusStore (iteration initial Samples.stored) !! "1700000000000000000-7"
  = Some (newWorkOrder Samples.towelsPayload 100%Z 101%Z).
Proof.
  apply (requestID_keys_the_status_map initial Samples.stored
           Samples.towelsMessage Samples.towelsPayload 1%N).
  - reflexivity.
  - vm_compute. reflexivity.
  - reflexivity.
Defined.

(** C8, counterexample: the clock moves between the two readings, and the
    work order passed to the insert has different timestamps. *)
Lemma timestamps_differ :
  insertCalls (iteration initial Samples.stored)
  = [newWorkOrder Samples.towelsPayload 100%Z 101%Z] /\
  WO.Created (WO.Timestamps (newWorkOrder Samples.towelsPayload 100%Z 101%Z))
  <> WO.Updated (WO.Timestamps (newWorkOrder Samples.towelsPayload 100%Z 101%Z)).
Proof.
  split.
  - unfold iteration. simpl received. cbv iota beta. rewrite towels_decoded.
    reflexivity.
  - simpl. discriminate.
Qed.

(** C8, amended: the work order built from a decoded envelope has status
    ["Pending"]; its creation time is the first reading of the clock and its
    update time the second, so the two are equal when the readings are. *)
Theorem work_order_pending_and_stamped s it msg payload :
  received it = Some msg ->
  Unmarshal (Body msg) = inr payload ->
  exists wo,
    insertCalls (iteration s it) = wo :: insertCalls s /\
    WO.Status wo = "Pending" /\
    WO.Created (WO.Timestamps wo) = now1 it /\
    WO.Updated (WO.Timestamps wo) = now2 it /\
    (now1 it = now2 it ->
     WO.Created (WO.Timestamps wo) = WO.Updated (WO.Timestamps wo)).
Proof.
  intros Hrecv Hdec. exists (newWorkOrder payload (now1 it) (now2 it)).
  unfold iteration. rewrite Hrecv, Hdec.
  destruct (inserted it); simpl; repeat split; try reflexivity; intros H; exact H.
Qed.

Lemma work_order_pending_and_stamped_witness :
  exists wo,
    insertCalls (iteration initial Samples.stored) = wo :: [] /\
    WO.Status wo = "Pending" /\
    WO.Created (WO.Timestamps wo) = 100%Z /\
    WO.Updated (WO.Timestamps wo) = 101%Z /\
    (100%Z = 101%Z -> WO.Created (WO.Timestamps wo) = WO.Updated (WO.Timestamps wo)).
Proof.
  apply (work_order_pending_and_stamped initial Samples.stored
           Samples.towelsMessage Samples.towelsPayload).
  - reflexivity.
  - vm_compute. reflexivity.
Defined.

End Consumer.

(** ** The status map *)

Section StatusMap.
Import WorkOrders.

(** Where an iteration writes the map: nowhere, unless the body decodes and
    the insert succeeds. *)
Lemma iteration_statusStore s it :
  statusStore (iteration s it) =
  match received it with
  | Some msg =>
      match Unmarshal (Body msg), inserted it with
      | inr payload, Some _ =>
          <[Payload.RequestID payload := newWorkOrder payload (now1 it) (now2 it)]>
            (statusStore s)
      | _, _ => statusStore s
      end
  | None => statusStore s
  end.
Proof.
  unfold iteration. destruct (received it) as [msg|]; [|reflexivity].
  destruct (Unmarshal (Body msg)) as [e|payload]; [reflexivity|].
  destruct (inserted it); reflexivity.
Qed.

Lemma iteration_keeps_entries s it k :
  is_Some (statusStore s !! k) -> is_Some (statusStore (iteration s it) !! k).
Proof.
  intros Hk. rewrite iteration_statusStore.
  destruct (received it) as [msg|]; [|assumption].
  destruct (Unmarshal (Body msg)) as [e|payload]; [assumption|].
  destruct (inserted it); [|assumption].
  rewrite lookup_insert_is_Some. destruct (decide (Payload.RequestID payload = k)); auto.
Qed.

Lemma perform_keeps_entries s op k :
  is_Some (statusStore s !! k) -> is_Some (statusStore (perform s op) !! k).
Proof. destruct op; simpl; [apply iteration_keeps_entries | trivial]. Qed.

Lemma run_keeps_entries ops : forall s k,
  is_Some (statusStore s !! k) -> is_Some (statusStore (run s ops) !! k).
Proof.
  induction ops as [|op ops IH]; intros s k Hk; simpl.
  - assumption.
  - apply IH. apply perform_keeps_entries. assumption.
Qed.

(** C9: an operation of the service changes the entry of a key only when it
    is an iteration whose body decodes to that request ID and whose insert
    succeeds, and the entry is then the work order built in that iteration;
    every other entry is unchanged, and no run removes an entry. *)
Theorem statusStore_write_monotone s :
  (forall op k,
      statusStore (perform s op) !! k <> statusStore s !! k ->
      exists it msg payload id,
        op = Consume it /\ received it = Some msg /\
        Unmarshal (Body msg) = inr payload /\ inserted it = Some id /\
        k = Payload.RequestID payload /\
        statusStore (perform s op) !! k
        = Some (newWorkOrder payload (now1 it) (now2 it))) /\
  (forall ops k,
      is_Some (statusStore s !! k) -> is_Some (statusStore (run s ops) !! k)).
Proof.
  split; [|intros ops k; apply run_keeps_entries].
  intros [it|path] k Hne; simpl in *; [|congruence].
  rewrite iteration_statusStore in *.
  destruct (received it) as [msg|] eqn:Hrecv; [|congruence].
  destruct (Unmarshal (Body msg)) as [e|payload] eqn:Hdec; [congruence|].
  destruct (inserted it) as [id|] eqn:Hins; [|congruence].
  destruct (decide (Payload.RequestID payload = k)) as [<-|Hk].
  - exists it, msg, payload, id. rewrite lookup_insert_eq. auto 10.
  - rewrite lookup_insert_ne in Hne by assumption. congruence.
Qed.

Lemma statusStore_write_monotone_witness :
  is_Some (statusStore
             (run (iteration initial Samples.stored)
                  [Query "/api/v1/workorder/status/none";
                   Consume Samples.insertFails; Consume Samples.dropped])
           !! "1700000000000000000-7").
Proof.
  apply (proj2 (statusStore_write_monotone (iteration initial Samples.stored))).
  eexists. vm_compute. reflexivity.
Defined.

Lemma iteration_allPending s it : allPending s -> allPending (iteration s it).
Proof.
  intros Hs k wo. rewrite iteration_statusStore.
  destruct (received it) as [msg|]; [|apply Hs].
  destruct (Unmarshal (Body msg)) as [e|payload]; [apply Hs|].
  destruct (inserted it); [|apply Hs].
  destruct (decide (Payload.RequestID payload = k)) as [<-|Hk].
  - rewrite lookup_insert_eq. intros [= <-]. reflexivity.
  - rewrite lookup_insert_ne by assumption. apply Hs.
Qed.

Lemma run_allPending ops : forall s, allPending s -> allPending (run s ops).
Proof.
  induction ops as [|op ops IH]; intros s Hs; simpl; [assumption|].
  apply IH. destruct op; simpl; [apply iteration_allPending|]; assumption.
Qed.

Lemma initial_allPending : allPending initial.
Proof. intros k wo H. simpl in H. rewrite lookup_empty in H. discriminate. Qed.

(** C10: after any run of the service from start-up, every work order in the
    status map has status ["Pending"], and so has every work order that
    [handleStatus] answers with. *)
Theorem projection_always_pending ops :
  (forall k wo,
      statusStore (run initial ops) !! k = Some wo -> WO.Status wo = "Pending") /\
  (forall path wo,
      handleStatus (run initial ops) path = OK wo -> WO.Status wo = "Pending").
Proof.
  pose proof (run_allPending ops initial initial_allPending) as Hinv.
  split; [exact Hinv|].
  intros path wo. unfold handleStatus.
  destruct (statusStore (run initial ops) !! _) as [resp|] eqn:Hk; [|discriminate].
  intros [= <-]. eapply Hinv. eassumption.
Qed.

Lemma projection_always_pending_witness :
  WO.Status (newWorkOrder Samples.towelsPayload 100%Z 101%Z) = "Pending".
Proof.
  apply (proj2 (projection_always_pending
                  [Consume Samples.dropped; Consume Samples.stored])
           "/api/v1/workorder/status/1700000000000000000-7").
  vm_compute. reflexivity.
Defined.

End StatusMap.

(** ** The envelope on the wire *)

Section Envelope.
Import Strings Chat Fmt Intake Json WorkOrders.

Lemma quoted_append s x : quoted s +:+ x = String dq (s +:+ String dq x).
Proof. unfold quoted. rewrite append_cons, append_assoc. reflexivity. Qed.

Lemma plainByte_inv c :
  plainByte c = true ->
  Ascii.eqb c dq = false /\ Ascii.eqb c "\" = false /\ (nat_of_ascii c <? 32)%nat = false.
Proof.
  unfold plainByte. intros H.
  apply andb_prop in H as [H H3]. apply andb_prop in H as [H1 H2].
  repeat split; apply negb_true_iff; assumption.
Qed.

(** A plain text followed by a double quote is scanned byte by byte. *)
Lemma scanString_plain s rest :
  plain s = true -> scanString (s +:+ String dq rest) = Some (bytes s, rest).
Proof.
  induction s as [|c s IH]; intros Hs.
  - reflexivity.
  - simpl in Hs. apply andb_prop in Hs as [Hc Hs].
    apply plainByte_inv in Hc as (H1 & H2 & H3).
    change (String c s +:+ String dq rest) with (String c (s +:+ String dq rest)).
    cbn [scanString]. rewrite H1, H2, H3, (IH Hs). reflexivity.
Qed.

Lemma unquotePieces_bytes s : unquotePieces (bytes s) = s.
Proof. induction s as [|c s IH]; simpl; [reflexivity | rewrite IH; reflexivity]. Qed.

Lemma parseString_plain s rest :
  plain s = true -> parseString (s +:+ String dq rest) = Some (s, rest).
Proof.
  intros Hs. unfold parseString. rewrite (scanString_plain s rest Hs).
  rewrite unquotePieces_bytes. reflexivity.
Qed.

(** A quoted plain text is the string value it spells. *)
Lemma parseValue_quoted fuel s rest :
  plain s = true ->
  parseValue (S fuel) (quoted s +:+ rest) = Some (JString s, rest).
Proof.
  intros Hs. rewrite quoted_append. cbn [parseValue skipSpace].
  change (isSpace dq) with false. cbv iota.
  change (Ascii.eqb dq "{") with false. change (Ascii.eqb dq "[") with false.
  rewrite Ascii.eqb_refl. cbv iota.
  rewrite (parseString_plain s rest Hs). reflexivity.
Qed.

(** An object that starts with a member. *)
Lemma parseValue_object fuel key rest :
  parseValue (S fuel) ("{" +:+ quoted key +:+ rest) =
  match parseMembers fuel (quoted key +:+ rest) with
  | Some (ms, r) => Some (JObject ms, r)
  | None => None
  end.
Proof. rewrite append_char, quoted_append. reflexivity. Qed.

(** A member with plain name and plain text, followed by a comma. *)
Lemma parseMembers_comma fuel key v rest :
  plain key = true -> plain v = true ->
  parseMembers (S (S fuel)) (quoted key +:+ ":" +:+ quoted v +:+ "," +:+ rest) =
  match parseMembers (S fuel) rest with
  | Some (ms, r) => Some ((key, JString v) :: ms, r)
  | None => None
  end.
Proof.
  intros Hk Hv. rewrite quoted_append.
  cbn [parseMembers skipSpace]. change (isSpace dq) with false. cbv iota.
  rewrite Ascii.eqb_refl. cbv iota.
  rewrite (parseString_plain key _ Hk), append_char. cbn [skipSpace].
  change (isSpace ":") with false. cbv iota.
  rewrite (parseValue_quoted fuel v _ Hv), append_char. reflexivity.
Qed.





Lemma plain_append a b : plain (a +:+ b) = plain a && plain b.
Proof.
  induction a as [|x a IH]; [reflexivity|].
  rewrite append_cons. simpl. rewrite IH. apply andb_assoc.
Qed.

Lemma plain_string_of_uint d : plain (NilEmpty.string_of_uint d) = true.
Proof. induction d; simpl; try reflexivity; exact IHd. Qed.

Lemma plain_formatD z : plain (formatD z) = true.
Proof.
  unfold formatD. destruct z; simpl; try reflexivity; apply plain_string_of_uint.
Qed.

Lemma plain_newRequestID t r : plain (newRequestID t r) = true.
Proof.
  unfold newRequestID. rewrite !plain_append, !plain_formatD. reflexivity.
Qed.

Lemma plain_departments d : d ∈ departments -> plain d = true.
Proof.
  unfold departments. intros H.
  repeat (apply elem_of_cons in H as [-> | H]; [reflexivity|]).
  inversion H.
Qed.


(** C2, at the failing inputs: the envelope of a text with double quotes in
    it is not JSON, whatever fuel the parser is given, and the consumer's
    decoding fails; the envelope of a text with a backslash in it decodes to
    a different text. *)
Theorem envelope_round_trip_broken :
  (forall fuel,
      parseValue fuel (fst (handleChatRequest Samples.observed Samples.quoting))
      = None) /\
  Unmarshal (fst (handleChatRequest Samples.observed Samples.quoting))
  = inl SyntaxError /\
  exists payload,
    Unmarshal (fst (handleChatRequest Samples.observed Samples.backslash))
    = inr payload /\
    Payload.Request payload <> Text Samples.backslash.
Proof.
  split; [|split; [vm_compute; reflexivity|]].
  - intros [|[|[|[|[|[|fuel]]]]]]; vm_compute; reflexivity.
  - eexists. split; [vm_compute; reflexivity|]. simpl. discriminate.
Qed.

End Envelope.



(** * Further properties of the services *)

(** ** Runs of the consumer loop *)

Section ConsumerRuns.
Import Strings WorkOrders Trace.

Lemma iteration_completed s it :
  completed (iteration s it) =
  match received it with
  | Some msg => msg :: completed s
  | None => completed s
  end.
Proof.
  unfold iteration. destruct (received it) as [msg|]; [|reflexivity].
  destruct (Unmarshal (Body msg)); [reflexivity|].
  destruct (inserted it); reflexivity.
Qed.

Lemma iteration_insertCalls s it :
  insertCalls (iteration s it) =
  match built it with
  | Some wo => wo :: insertCalls s
  | None => insertCalls s
  end.
Proof.
  unfold iteration, built. destruct (received it) as [msg|]; [|reflexivity].
  destruct (Unmarshal (Body msg)); [reflexivity|].
  destruct (inserted it); reflexivity.
Qed.

Lemma iteration_writes s it :
  statusStore (iteration s it) =
  match writes it with
  | Some (k, wo) => <[k := wo]> (statusStore s)
  | None => statusStore s
  end.
Proof.
  unfold iteration, writes. destruct (received it) as [msg|]; [|reflexivity].
  destruct (Unmarshal (Body msg)); [reflexivity|].
  destruct (inserted it); reflexivity.
Qed.

(** X1: over any run of the loop, the messages passed to [CompleteMessage]
    are the received messages, each once and in the order of their arrival,
    whatever the outcome of decoding and insert. *)
Theorem completed_are_the_received its : forall s,
  completed (workOrderConsumer s its) = (reverse (omap received its) ++ completed s)%list.
Proof.
  induction its as [|it its IH]; intros s; [reflexivity|].
  rewrite workOrderConsumer_cons, IH, iteration_completed. simpl.
  destruct (received it) as [msg|]; [|reflexivity].
  rewrite reverse_cons, <- app_assoc. reflexivity.
Qed.

(** X2: over any run of the loop, [InsertOne] is called once for every
    received message whose body decodes, in order, whether or not an earlier
    message carried the same request ID. *)
Theorem one_insert_per_decoded_message its : forall s,
  insertCalls (workOrderConsumer s its) = (reverse (omap built its) ++ insertCalls s)%list.
Proof.
  induction its as [|it its IH]; intros s; [reflexivity|].
  rewrite workOrderConsumer_cons, IH, iteration_insertCalls. simpl.
  destruct (built it) as [wo|]; [|reflexivity].
  rewrite reverse_cons, <- app_assoc. reflexivity.
Qed.

(** The status map after a run: the writes of the run, later ones first,
    over the map before it. *)
Lemma statusStore_after_run its : forall s,
  statusStore (workOrderConsumer s its)
  = list_to_map (reverse (omap writes its)) ∪ statusStore s.
Proof.
  induction its as [|it its IH]; intros s.
  - simpl. rewrite (left_id_L ∅ (∪)). reflexivity.
  - rewrite workOrderConsumer_cons, IH, iteration_writes. simpl.
    destruct (writes it) as [[k wo]|]; [|reflexivity].
    rewrite reverse_cons, list_to_map_app. simpl.
    rewrite <- (assoc_L (∪)). f_equal.
    rewrite insert_empty, <- insert_union_singleton_l. reflexivity.
Qed.

(** X3: last write wins.  After a run, the entry of a request ID is the work
    order of the last iteration that decoded that ID and whose insert
    succeeded. *)
Theorem last_write_wins s before it after k wo :
  writes it = Some (k, wo) ->
  (forall it' wo', it' ∈ after -> writes it' <> Some (k, wo')) ->
  statusStore (workOrderConsumer s (before ++ it :: after)%list) !! k = Some wo.
Proof.
  intros Hit Hafter.
  unfold workOrderConsumer. rewrite fold_left_app. simpl.
  fold (workOrderConsumer s before).
  fold (workOrderConsumer (iteration (workOrderConsumer s before) it) after).
  rewrite statusStore_after_run.
  assert (Hnone : (list_to_map (reverse (omap writes after)) : gmap string WO.t) !! k = None).
  { apply not_elem_of_list_to_map_1. intros Hin.
    apply list_elem_of_fmap in Hin as [[k' wo'] [Hk Hin]]. simpl in Hk. subst k'.
    rewrite elem_of_reverse in Hin. apply list_elem_of_omap in Hin as [it' [Hin' Hw]].
    exact (Hafter it' wo' Hin' Hw). }
  rewrite lookup_union_r by exact Hnone.
  rewrite iteration_writes, Hit. apply lookup_insert_eq.
Qed.

Lemma last_write_wins_witness :
  statusStore (workOrderConsumer initial
                 ([Samples.stored] ++ Scenarios.redelivered :: [Samples.insertFails])%list)
  !! "1700000000000000000-7"
  = Some (newWorkOrder Samples.towelsPayload 200%Z 201%Z).
Proof.
  apply last_write_wins.
  - vm_compute. reflexivity.
  - intros it' wo' Hin. apply list_elem_of_singleton in Hin. subst it'.
    vm_compute. discriminate.
Defined.

(** X4: every entry of the status map after a run from start-up was written
    by an iteration of that run, whose body decoded to that request ID and
    whose insert succeeded. *)
Theorem entries_come_from_the_run its k wo :
  statusStore (workOrderConsumer initial its) !! k = Some wo ->
  exists it, it ∈ its /\ writes it = Some (k, wo).
Proof.
  rewrite statusStore_after_run. simpl. rewrite (right_id_L ∅ (∪)).
  intros H. apply elem_of_list_to_map_2 in H.
  rewrite elem_of_reverse in H. apply list_elem_of_omap in H. exact H.
Qed.

Lemma entries_come_from_the_run_witness :
  exists it,
    it ∈ [Scenarios.receiveFails; Samples.stored; Samples.dropped] /\
    writes it = Some ("1700000000000000000-7",
                      newWorkOrder Samples.towelsPayload 100%Z 101%Z).
Proof.
  apply (entries_come_from_the_run
           [Scenarios.receiveFails; Samples.stored; Samples.dropped]).
  vm_compute. reflexivity.
Defined.

(** X5: no de-duplication.  When a message that decodes is delivered twice
    and both inserts succeed, [InsertOne] is called twice, the message is
    completed twice, and the status map keeps the work order of the second
    delivery. *)
Theorem redelivery_inserts_twice s it1 it2 msg payload id1 id2 :
  received it1 = Some msg -> received it2 = Some msg ->
  Unmarshal (Body msg) = inr payload ->
  inserted it1 = Some id1 -> inserted it2 = Some id2 ->
  insertCalls (workOrderConsumer s [it1; it2])
  = newWorkOrder payload (now1 it2) (now2 it2)
    :: newWorkOrder payload (now1 it1) (now2 it1) :: insertCalls s /\
  completed (workOrderConsumer s [it1; it2]) = msg :: msg :: completed s /\
  statusStore (workOrderConsumer s [it1; it2]) !! Payload.RequestID payload
  = Some (newWorkOrder payload (now1 it2) (now2 it2)).
Proof.
  intros Hr1 Hr2 Hdec Hi1 Hi2.
  unfold workOrderConsumer. simpl fold_left.
  rewrite !iteration_insertCalls, !iteration_completed, !iteration_writes.
  unfold built, writes. rewrite Hr1, Hr2, Hdec, Hi1, Hi2.
  repeat split. apply lookup_insert_eq.
Qed.

Lemma redelivery_inserts_twice_witness :
  insertCalls (workOrderConsumer initial [Samples.stored; Scenarios.redelivered])
  = [newWorkOrder Samples.towelsPayload 200%Z 201%Z;
     newWorkOrder Samples.towelsPayload 100%Z 101%Z] /\
  completed (workOrderConsumer initial [Samples.stored; Scenarios.redelivered])
  = [Samples.towelsMessage; Samples.towelsMessage] /\
  statusStore (workOrderConsumer initial [Samples.stored; Scenarios.redelivered])
  !! "1700000000000000000-7"
  = Some (newWorkOrder Samples.towelsPayload 200%Z 201%Z).
Proof.
  apply (redelivery_inserts_twice initial Samples.stored Scenarios.redelivered
           Samples.towelsMessage Samples.towelsPayload 1%N 2%N).
  - reflexivity.
  - reflexivity.
  - vm_compute. reflexivity.
  - reflexivity.
  - reflexivity.
Defined.

Lemma writes_newWorkOrder it k wo :
  writes it = Some (k, wo) ->
  exists payload,
    k = Payload.RequestID payload /\ wo = newWorkOrder payload (now1 it) (now2 it).
Proof.
  unfold writes. destruct (received it) as [msg|]; [|discriminate].
  destruct (Unmarshal (Body msg)) as [e|payload]; [discriminate|].
  destruct (inserted it); [|discriminate].
  intros [= <- <-]. exists payload. split; reflexivity.
Qed.

(** X6: the work order that a status request answers with never carries the
    ID that the store gave to the inserted document: its [ID] is the zero
    [ObjectID], whatever [InsertOne] returned. *)
Theorem status_answer_has_nil_ID its path wo :
  handleStatus (workOrderConsumer initial its) path = OK wo ->
  WO.ID wo = WO.NilObjectID.
Proof.
  unfold handleStatus.
  destruct (statusStore (workOrderConsumer initial its) !! _) as [resp|] eqn:Hk;
    [|discriminate].
  intros [= <-]. rewrite statusStore_after_run in Hk. simpl in Hk.
  rewrite (right_id_L ∅ (∪)) in Hk. apply elem_of_list_to_map_2 in Hk.
  rewrite elem_of_reverse in Hk. apply list_elem_of_omap in Hk as [it [_ Hw]].
  apply writes_newWorkOrder in Hw as [payload [_ ->]]. reflexivity.
Qed.

Lemma status_answer_has_nil_ID_witness :
  inserted Samples.stored = Some 1%N /\
  WO.ID (newWorkOrder Samples.towelsPayload 100%Z 101%Z) = WO.NilObjectID.
Proof.
  split; [reflexivity|].
  apply (status_answer_has_nil_ID [Samples.stored]
           "/api/v1/workorder/status/1700000000000000000-7").
  vm_compute. reflexivity.
Defined.

Lemma TrimPrefix_append p s : TrimPrefix (p +:+ s) p = s.
Proof.
  induction p as [|c p IH]; [reflexivity|].
  rewrite append_cons. simpl. rewrite Ascii.eqb_refl, HasPrefix_append. exact IH.
Qed.



End ConsumerRuns.

(** ** The middlewares *)

Section Middlewares.
Import Strings Http Common.
Context {St : Type}.

(** The headers that [CORSMiddleware] sets before anything else. *)
Lemma CORSMiddleware_passes (next : Handler St) r s w :
  Method r <> "OPTIONS" ->
  CORSMiddleware next r (s, w)
  = next r (s, HeaderSet "Access-Control-Allow-Headers" "Authorization, Content-Type"
                 (HeaderSet "Access-Control-Allow-Methods" "GET, POST, OPTIONS"
                    (HeaderSet "Access-Control-Allow-Origin" "*" w))).
Proof.
  intros Hm. unfold CORSMiddleware.
  apply String.eqb_neq in Hm. rewrite Hm. reflexivity.
Qed.

Lemma JWTAuthMiddleware_passes parse (next : Handler St) r s w :
  HasPrefix (Authorization r) "Bearer " = true ->
  parse (TrimPrefix (Authorization r) "Bearer ") = true ->
  JWTAuthMiddleware parse next r (s, w) = next r (s, w).
Proof.
  intros Hp Ht. unfold JWTAuthMiddleware. rewrite Hp, Ht. reflexivity.
Qed.

Lemma JWTAuthMiddleware_rejects parse (next : Handler St) r s w :
  HasPrefix (Authorization r) "Bearer " = false \/
  parse (TrimPrefix (Authorization r) "Bearer ") = false ->
  JWTAuthMiddleware parse next r (s, w) = (s, Error w "Unauthorized" StatusUnauthorized).
Proof.
  intros Hbad. unfold JWTAuthMiddleware.
  destruct (HasPrefix (Authorization r) "Bearer ") eqn:Hp; [|reflexivity].
  destruct Hbad as [Hbad | Hbad]; [discriminate|]. rewrite Hbad. reflexivity.
Qed.

Lemma CORSMiddleware_preflight (next : Handler St) r s w :
  Method r = "OPTIONS" ->
  CORSMiddleware next r (s, w)
  = (s, WriteHeader StatusNoContent
          (HeaderSet "Access-Control-Allow-Headers" "Authorization, Content-Type"
             (HeaderSet "Access-Control-Allow-Methods" "GET, POST, OPTIONS"
                (HeaderSet "Access-Control-Allow-Origin" "*" w)))).
Proof. intros Hm. unfold CORSMiddleware. rewrite Hm. reflexivity. Qed.

(** X8: a CORS preflight.  An [OPTIONS] request is answered by
    [CORSMiddleware] itself, with status 204, the three CORS headers and no
    body; the wrapped handler is not called, so neither credentials nor a
    body are looked at and the state is as before. *)
Theorem preflight_answered_by_CORS (next : Handler St) r s w :
  Method r = "OPTIONS" -> Sent w = None ->
  fst (CORSMiddleware next r (s, w)) = s /\
  StatusCode (finish (snd (CORSMiddleware next r (s, w)))) = 204 /\
  ResponseBody (finish (snd (CORSMiddleware next r (s, w)))) = Written w /\
  Headers (finish (snd (CORSMiddleware next r (s, w))))
    !! "Access-Control-Allow-Origin" = Some "*" /\
  Headers (finish (snd (CORSMiddleware next r (s, w))))
    !! "Access-Control-Allow-Methods" = Some "GET, POST, OPTIONS" /\
  Headers (finish (snd (CORSMiddleware next r (s, w))))
    !! "Access-Control-Allow-Headers" = Some "Authorization, Content-Type" /\
  forall next' : Handler St,
    CORSMiddleware next' r (s, w) = CORSMiddleware next r (s, w).
Proof.
  intros Hm Hw.
  pose proof (fun next0 => CORSMiddleware_preflight next0 r s w Hm) as Hans.
  rewrite Hans. cbn [fst snd].
  unfold WriteHeader, HeaderSet, finish. cbn [Sent Header Written].
  rewrite Hw. cbn [StatusCode ResponseBody Headers Sent Written].
  split; [reflexivity|]. split; [reflexivity|]. split; [reflexivity|].
  split; [|split; [|split]].
  - rewrite !lookup_insert_ne by discriminate. apply lookup_insert_eq.
  - rewrite lookup_insert_ne by discriminate. apply lookup_insert_eq.
  - apply lookup_insert_eq.
  - intros next'. rewrite Hans. unfold WriteHeader, HeaderSet.
    cbn [Sent Header Written]. rewrite Hw. reflexivity.
Qed.

(** X9: a request whose [Authorization] header does not start with
    ["Bearer "], or whose token [jwt.Parse] does not accept, is answered 401
    with the text ["Unauthorized"] by [JWTAuthMiddleware]; the wrapped
    handler is not called and the state is as before. *)
Theorem unauthorized_rejected parse (next : Handler St) r s w :
  Sent w = None ->
  HasPrefix (Authorization r) "Bearer " = false \/
  parse (TrimPrefix (Authorization r) "Bearer ") = false ->
  fst (JWTAuthMiddleware parse next r (s, w)) = s /\
  StatusCode (finish (snd (JWTAuthMiddleware parse next r (s, w)))) = 401 /\
  ResponseBody (finish (snd (JWTAuthMiddleware parse next r (s, w))))
  = Written w +:+ "Unauthorized" +:+ newline /\
  Headers (finish (snd (JWTAuthMiddleware parse next r (s, w)))) !! "Content-Type"
  = Some "text/plain; charset=utf-8" /\
  forall next' : Handler St,
    JWTAuthMiddleware parse next' r (s, w) = JWTAuthMiddleware parse next r (s, w).
Proof.
  intros Hw Hbad.
  pose proof (fun next0 => JWTAuthMiddleware_rejects parse next0 r s w Hbad) as Hrej.
  rewrite Hrej. cbn [fst snd].
  unfold Error, Write, WriteHeader, HeaderSet, HeaderDel, finish.
  cbn [Sent Header Written]. rewrite Hw.
  cbn [StatusCode ResponseBody Headers Sent Written Header].
  repeat split.
  - rewrite lookup_insert_ne by discriminate. apply lookup_insert_eq.
  - intros next'. rewrite Hrej.
    unfold Error, Write, WriteHeader, HeaderSet, HeaderDel.
    cbn [Sent Header Written]. rewrite Hw. reflexivity.
Qed.

End Middlewares.

Section MiddlewareSamples.
Import Strings Http Common.

Lemma preflight_answered_by_CORS_witness :
  StatusCode
    (finish (snd (ChatHTTP.chatHandler Scenarios.parse Samples.observed
                    Scenarios.preflight (Scenarios.idle, NewRecorder)))) = 204.
Proof.
  apply (preflight_answered_by_CORS
           (Common.JWTAuthMiddleware Scenarios.parse
              (ChatHTTP.handleChatRequest Samples.observed))
           Scenarios.preflight Scenarios.idle NewRecorder).
  - reflexivity.
  - reflexivity.
Defined.

Lemma unauthorized_rejected_witness :
  StatusCode
    (finish (snd (Common.JWTAuthMiddleware Scenarios.parse
                    (ChatHTTP.handleChatRequest Samples.observed)
                    Scenarios.badToken (Scenarios.idle, NewRecorder)))) = 401.
Proof.
  apply (unauthorized_rejected Scenarios.parse
           (ChatHTTP.handleChatRequest Samples.observed)
           Scenarios.badToken Scenarios.idle NewRecorder).
  - reflexivity.
  - right. vm_compute. reflexivity.
Defined.

End MiddlewareSamples.

(** ** The chat service over HTTP *)

Section ChatService.
Import Strings Chat Intake Json JsonEncode Http Common ChatHTTP.

Lemma handleChatRequest_decoded o r s w req :
  decodeRequest (RequestBody r) = inr req ->
  ChatHTTP.handleChatRequest o r (s, w)
  = (publish (fst (Intake.handleChatRequest o req)) s,
     Write (encodeResponse (snd (Intake.handleChatRequest o req)))
       (HeaderSet "Content-Type" "application/json" w)).
Proof.
  intros Hdec. unfold ChatHTTP.handleChatRequest, DecodeJSONBody. rewrite Hdec.
  reflexivity.
Qed.

Lemma handleChatRequest_invalid o r s w e :
  decodeRequest (RequestBody r) = inl e ->
  ChatHTTP.handleChatRequest o r (s, w)
  = (s, Error w "Invalid request body" StatusBadRequest).
Proof.
  intros Hdec. unfold ChatHTTP.handleChatRequest, DecodeJSONBody. rewrite Hdec.
  reflexivity.
Qed.

(** X10: an accepted request.  For a request that is not [OPTIONS], carries
    a bearer token that [jwt.Parse] accepts and has a body that decodes, the
    chat handler hands exactly one message to the sender, the envelope, and
    answers 200 with content type [application/json] and the encoded
    response. *)
Theorem accepted_request_published parse o r s req :
  Method r <> "OPTIONS" ->
  HasPrefix (Authorization r) "Bearer " = true ->
  parse (TrimPrefix (Authorization r) "Bearer ") = true ->
  decodeRequest (RequestBody r) = inr req ->
  published (fst (chatHandler parse o r (s, NewRecorder)))
  = fst (Intake.handleChatRequest o req) :: published s /\
  StatusCode (finish (snd (chatHandler parse o r (s, NewRecorder)))) = 200 /\
  Headers (finish (snd (chatHandler parse o r (s, NewRecorder)))) !! "Content-Type"
  = Some "application/json" /\
  ResponseBody (finish (snd (chatHandler parse o r (s, NewRecorder))))
  = encodeResponse (snd (Intake.handleChatRequest o req)).
Proof.
  intros Hm Hp Ht Hdec. unfold chatHandler.
  rewrite (CORSMiddleware_passes _ r s NewRecorder Hm).
  rewrite (JWTAuthMiddleware_passes parse _ r s _ Hp Ht).
  rewrite (handleChatRequest_decoded o r s _ req Hdec).
  repeat split.
Qed.

Lemma accepted_request_published_witness :
  published (fst (chatHandler Scenarios.parse Samples.observed Scenarios.towelsPost
                    (Scenarios.idle, NewRecorder)))
  = [fst (Intake.handleChatRequest Samples.observed Samples.towels)] /\
  StatusCode (finish (snd (chatHandler Scenarios.parse Samples.observed
                             Scenarios.towelsPost (Scenarios.idle, NewRecorder)))) = 200 /\
  Headers (finish (snd (chatHandler Scenarios.parse Samples.observed
                          Scenarios.towelsPost (Scenarios.idle, NewRecorder))))
    !! "Content-Type" = Some "application/json" /\
  ResponseBody (finish (snd (chatHandler Scenarios.parse Samples.observed
                               Scenarios.towelsPost (Scenarios.idle, NewRecorder))))
  = encodeResponse (snd (Intake.handleChatRequest Samples.observed Samples.towels)).
Proof.
  apply (accepted_request_published Scenarios.parse Samples.observed
           Scenarios.towelsPost Scenarios.idle Samples.towels).
  - discriminate.
  - reflexivity.
  - reflexivity.
  - vm_compute. reflexivity.
Defined.

(** X11: a rejected request.  For an [OPTIONS] request, a request without an
    accepted bearer token, or a request whose body does not decode, the chat
    handler hands nothing to the sender and answers 204, 401 or 400. *)
Theorem rejected_request_not_published parse o r s :
  Method r = "OPTIONS" \/
  HasPrefix (Authorization r) "Bearer " = false \/
  parse (TrimPrefix (Authorization r) "Bearer ") = false \/
  (exists e, decodeRequest (RequestBody r) = inl e) ->
  fst (chatHandler parse o r (s, NewRecorder)) = s /\
  (StatusCode (finish (snd (chatHandler parse o r (s, NewRecorder)))) = 204 \/
   StatusCode (finish (snd (chatHandler parse o r (s, NewRecorder)))) = 401 \/
   StatusCode (finish (snd (chatHandler parse o r (s, NewRecorder)))) = 400).
Proof.
  intros Hrej. unfold chatHandler.
  destruct (decide (Method r = "OPTIONS")) as [Hm|Hm].
  { rewrite (CORSMiddleware_preflight _ r s NewRecorder Hm). split; [reflexivity|].
    left. reflexivity. }
  rewrite (CORSMiddleware_passes _ r s NewRecorder Hm).
  destruct (HasPrefix (Authorization r) "Bearer ") eqn:Hp.
  2:{ rewrite JWTAuthMiddleware_rejects by (left; exact Hp). split; [reflexivity|].
      right. left. reflexivity. }
  destruct (parse (TrimPrefix (Authorization r) "Bearer ")) eqn:Ht.
  2:{ rewrite JWTAuthMiddleware_rejects by (right; exact Ht). split; [reflexivity|].
      right. left. reflexivity. }
  rewrite (JWTAuthMiddleware_passes parse _ r s _ Hp Ht).
  destruct Hrej as [H | [H | [H | [e He]]]]; try congruence.
  rewrite (handleChatRequest_invalid o r s _ e He). split; [reflexivity|].
  right. right. reflexivity.
Qed.

Lemma rejected_request_not_published_witness :
  fst (chatHandler Scenarios.parse Samples.observed Scenarios.anonymous
         (Scenarios.idle, NewRecorder)) = Scenarios.idle /\
  (StatusCode (finish (snd (chatHandler Scenarios.parse Samples.observed
                              Scenarios.anonymous (Scenarios.idle, NewRecorder)))) = 204 \/
   StatusCode (finish (snd (chatHandler Scenarios.parse Samples.observed
                              Scenarios.anonymous (Scenarios.idle, NewRecorder)))) = 401 \/
   StatusCode (finish (snd (chatHandler Scenarios.parse Samples.observed
                              Scenarios.anonymous (Scenarios.idle, NewRecorder)))) = 400).
Proof.
  apply (rejected_request_not_published Scenarios.parse Samples.observed
           Scenarios.anonymous Scenarios.idle).
  right. left. reflexivity.
Defined.






Lemma escapeBytes_append a b : escapeBytes (a +:+ b) = escapeBytes a +:+ escapeBytes b.
Proof.
  induction a as [|c a IH]; [reflexivity|].
  rewrite append_cons. cbn [escapeBytes]. rewrite IH, append_assoc. reflexivity.
Qed.

Lemma escapeBytes_string_of_uint d :
  escapeBytes (NilEmpty.string_of_uint d) = NilEmpty.string_of_uint d.
Proof.
  induction d; cbn [NilEmpty.string_of_uint escapeBytes]; try reflexivity;
    rewrite IHd; reflexivity.
Qed.

(** Decimal numbers are written as they are. *)
Lemma escapeBytes_formatD z : escapeBytes (Fmt.formatD z) = Fmt.formatD z.
Proof.
  unfold Fmt.formatD. destruct z as [|p|p]; cbn [Z.to_int NilEmpty.string_of_int].
  - reflexivity.
  - apply escapeBytes_string_of_uint.
  - cbn [escapeBytes]. rewrite escapeBytes_string_of_uint. reflexivity.
Qed.

Lemma encodeString_newRequestID t r :
  encodeString (newRequestID t r) = Fmt.quoted (newRequestID t r).
Proof.
  unfold encodeString, Fmt.quoted, newRequestID.
  rewrite !escapeBytes_append, !escapeBytes_formatD. reflexivity.
Qed.

Lemma encodeString_departments d :
  d ∈ departments -> encodeString d = Fmt.quoted d /\ String.eqb d "" = false.
Proof.
  unfold departments. intros H.
  repeat (apply elem_of_cons in H as [-> | H]; [split; reflexivity|]).
  inversion H.
Qed.

(** The last member of an object, with text after the closing brace. *)
Lemma parseMembers_end fuel key v rest :
  plain key = true -> plain v = true ->
  parseMembers (S (S fuel)) (Fmt.quoted key +:+ ":" +:+ Fmt.quoted v +:+ "}" +:+ rest)
  = Some ([(key, JString v)], rest).
Proof.
  intros Hk Hv. rewrite quoted_append.
  cbn [parseMembers skipSpace]. change (isSpace Fmt.dq) with false. cbv iota.
  rewrite Ascii.eqb_refl. cbv iota.
  rewrite (parseString_plain key _ Hk), append_char. cbn [skipSpace].
  change (isSpace ":") with false. cbv iota.
  rewrite (parseValue_quoted fuel v _ Hv), append_char. reflexivity.
Qed.

(** X13: the response is JSON.  Whatever guest ID and text a request holds,
    the body that the chat handler answers with is a JSON text that decodes
    to the object of the request ID, the status ["received"] and the
    department, which is never left out. *)
Theorem response_is_JSON o req :
  rangeOrder (order o) ->
  Json.decode (encodeResponse (snd (Intake.handleChatRequest o req)))
  = Some (JObject
            [("requestID",
              JString (Intake.RequestID (snd (Intake.handleChatRequest o req))));
             ("status", JString "received");
             ("department",
              JString (Intake.Department (snd (Intake.handleChatRequest o req))))]).
Proof.
  intros Hord. unfold Intake.handleChatRequest.
  cbn [snd Intake.RequestID Intake.Department Intake.Status].
  set (id := newRequestID (nanos o) (rnd o)).
  set (d := routeDepartment (order o) (Text req +:+ " " +:+ VoiceTranscript req)).
  assert (Hd : d ∈ departments) by (apply routeDepartment_departments; exact Hord).
  destruct (encodeString_departments d Hd) as [Hdq Hdne].
  assert (Hbody : encodeResponse {| Intake.RequestID := id; Status := "received";
                                    Department := d |}
                  = "{" +:+ Fmt.quoted "requestID" +:+ ":" +:+ Fmt.quoted id +:+ "," +:+
                    Fmt.quoted "status" +:+ ":" +:+ Fmt.quoted "received" +:+ "," +:+
                    Fmt.quoted "department" +:+ ":" +:+ Fmt.quoted d +:+ "}" +:+ newline).
  { unfold encodeResponse, member. cbn [Intake.RequestID Status Department].
    rewrite Hdne, Hdq. unfold id. rewrite encodeString_newRequestID.
    change (encodeString "received") with (Fmt.quoted "received").
    rewrite !append_assoc. reflexivity. }
  rewrite Hbody. unfold decode.
  set (body := "{" +:+ _).
  assert (Hlen : (2 <= String.length body)%nat).
  { unfold body. rewrite append_char, quoted_append. simpl. lia. }
  replace (2 * String.length body + 2)%nat
    with (S (S (S (S (S (2 * String.length body - 3))))))%nat by lia.
  unfold body. rewrite parseValue_object.
  rewrite parseMembers_comma by (reflexivity || apply plain_newRequestID).
  rewrite parseMembers_comma by reflexivity.
  rewrite parseMembers_end by (reflexivity || (apply plain_departments; exact Hd)).
  reflexivity.
Qed.

Lemma response_is_JSON_witness :
  Json.decode (encodeResponse (snd (Intake.handleChatRequest Samples.observed
                                      Samples.quoting)))
  = Some (JObject [("requestID", JString "1700000000000000000-7");
                   ("status", JString "received");
                   ("department", JString "General")]).
Proof.
  apply (response_is_JSON Samples.observed Samples.quoting). apply table_rangeOrder.
Defined.

End ChatService.

(** ** The work-order service over HTTP *)

Section StatusService.
Import Strings Http Common WorkOrders.

Lemma handleStatus_answer encode r s w :
  WorkOrderHTTP.handleStatus encode r (s, w)
  = (s, match statusStore s !! TrimPrefix (Path r) statusPrefix with
        | None => Error w "Not found" StatusNotFound
        | Some resp =>
            Write (encode resp +:+ newline) (HeaderSet "Content-Type" "application/json" w)
        end).
Proof.
  unfold WorkOrderHTTP.handleStatus, handleStatus.
  destruct (statusStore s !! TrimPrefix (Path r) statusPrefix); reflexivity.
Qed.

(** X14: a status request with an accepted bearer token is answered from the
    status map alone: 404 with the text ["Not found"] when the map has no
    entry for what follows the path prefix, otherwise 200 with content type
    [application/json] and the encoded work order of that entry. *)
Theorem status_answered_from_map parse encode r s :
  Method r <> "OPTIONS" ->
  HasPrefix (Authorization r) "Bearer " = true ->
  parse (TrimPrefix (Authorization r) "Bearer ") = true ->
  (statusStore s !! TrimPrefix (Path r) statusPrefix = None ->
   StatusCode (finish (snd (WorkOrderHTTP.statusHandler parse encode r (s, NewRecorder))))
   = 404 /\
   ResponseBody (finish (snd (WorkOrderHTTP.statusHandler parse encode r (s, NewRecorder))))
   = "Not found" +:+ newline) /\
  (forall wo,
      statusStore s !! TrimPrefix (Path r) statusPrefix = Some wo ->
      StatusCode (finish (snd (WorkOrderHTTP.statusHandler parse encode r (s, NewRecorder))))
      = 200 /\
      Headers (finish (snd (WorkOrderHTTP.statusHandler parse encode r (s, NewRecorder))))
        !! "Content-Type" = Some "application/json" /\
      ResponseBody (finish (snd (WorkOrderHTTP.statusHandler parse encode r (s, NewRecorder))))
      = encode wo +:+ newline).
Proof.
  intros Hm Hp Ht. unfold WorkOrderHTTP.statusHandler.
  rewrite (CORSMiddleware_passes _ r s NewRecorder Hm).
  rewrite (JWTAuthMiddleware_passes parse _ r s _ Hp Ht).
  rewrite handleStatus_answer. cbn [snd].
  split.
  - intros ->. split; reflexivity.
  - intros wo ->. repeat split.
Qed.

Lemma status_answered_from_map_witness :
  StatusCode (finish (snd (WorkOrderHTTP.statusHandler Scenarios.parse Scenarios.encode
                             (Scenarios.statusGet "does-not-exist")
                             (iteration initial Samples.stored, NewRecorder)))) = 404 /\
  ResponseBody (finish (snd (WorkOrderHTTP.statusHandler Scenarios.parse Scenarios.encode
                               (Scenarios.statusGet "does-not-exist")
                               (iteration initial Samples.stored, NewRecorder))))
  = "Not found" +:+ newline.
Proof.
  apply (status_answered_from_map Scenarios.parse Scenarios.encode
           (Scenarios.statusGet "does-not-exist") (iteration initial Samples.stored)).
  - discriminate.
  - reflexivity.
  - reflexivity.
  - vm_compute. reflexivity.
Defined.

(** X15: status requests leave the service state as it is; and a request
    that is [OPTIONS] or carries no accepted bearer token gets the same
    answer whatever the status map holds. *)
Theorem status_closed_without_token parse encode r s :
  fst (WorkOrderHTTP.statusHandler parse encode r (s, NewRecorder)) = s /\
  (Method r = "OPTIONS" \/
   HasPrefix (Authorization r) "Bearer " = false \/
   parse (TrimPrefix (Authorization r) "Bearer ") = false ->
   forall s',
     snd (WorkOrderHTTP.statusHandler parse encode r (s', NewRecorder))
     = snd (WorkOrderHTTP.statusHandler parse encode r (s, NewRecorder))).
Proof.
  unfold WorkOrderHTTP.statusHandler.
  destruct (decide (Method r = "OPTIONS")) as [Hm|Hm].
  { split; [|intros _ s']; rewrite !(CORSMiddleware_preflight _ r _ NewRecorder Hm);
      reflexivity. }
  destruct (HasPrefix (Authorization r) "Bearer ") eqn:Hp.
  2:{ split; [|intros _ s']; rewrite !(CORSMiddleware_passes _ r _ NewRecorder Hm);
        rewrite !JWTAuthMiddleware_rejects by (left; exact Hp); reflexivity. }
  destruct (parse (TrimPrefix (Authorization r) "Bearer ")) eqn:Ht.
  2:{ split; [|intros _ s']; rewrite !(CORSMiddleware_passes _ r _ NewRecorder Hm);
        rewrite !JWTAuthMiddleware_rejects by (right; exact Ht); reflexivity. }
  split.
  - rewrite (CORSMiddleware_passes _ r s NewRecorder Hm).
    rewrite (JWTAuthMiddleware_passes parse _ r s _ Hp Ht).
    rewrite handleStatus_answer. reflexivity.
  - intros [H | [H | H]]; congruence.
Qed.

Lemma status_closed_without_token_witness :
  snd (WorkOrderHTTP.statusHandler Scenarios.parse Scenarios.encode
         (Scenarios.statusProbe "1700000000000000000-7")
         (iteration initial Samples.stored, NewRecorder))
  = snd (WorkOrderHTTP.statusHandler Scenarios.parse Scenarios.encode
           (Scenarios.statusProbe "1700000000000000000-7") (initial, NewRecorder)).
Proof.
  apply (proj2 (status_closed_without_token Scenarios.parse Scenarios.encode
                  (Scenarios.statusProbe "1700000000000000000-7") initial)).
  right. left. reflexivity.
Defined.

(** X16: every answer of the chat handler and of the status handler carries
    the three CORS headers, whatever the request and whatever the outcome. *)
Theorem CORS_headers_on_every_answer parse r :
  (forall o s,
      let answer := finish (snd (ChatHTTP.chatHandler parse o r (s, NewRecorder))) in
      Headers answer !! "Access-Control-Allow-Origin" = Some "*" /\
      Headers answer !! "Access-Control-Allow-Methods" = Some "GET, POST, OPTIONS" /\
      Headers answer !! "Access-Control-Allow-Headers"
      = Some "Authorization, Content-Type") /\
  (forall encode s,
      let answer :=
        finish (snd (WorkOrderHTTP.statusHandler parse encode r (s, NewRecorder))) in
      Headers answer !! "Access-Control-Allow-Origin" = Some "*" /\
      Headers answer !! "Access-Control-Allow-Methods" = Some "GET, POST, OPTIONS" /\
      Headers answer !! "Access-Control-Allow-Headers"
      = Some "Authorization, Content-Type").
Proof.
  split.
  - intros o s answer. subst answer. unfold ChatHTTP.chatHandler.
    destruct (decide (Method r = "OPTIONS")) as [Hm|Hm].
    { rewrite (CORSMiddleware_preflight _ r s NewRecorder Hm). repeat split. }
    rewrite (CORSMiddleware_passes _ r s NewRecorder Hm).
    destruct (HasPrefix (Authorization r) "Bearer ") eqn:Hp.
    2:{ rewrite JWTAuthMiddleware_rejects by (left; exact Hp). repeat split. }
    destruct (parse (TrimPrefix (Authorization r) "Bearer ")) eqn:Ht.
    2:{ rewrite JWTAuthMiddleware_rejects by (right; exact Ht). repeat split. }
    rewrite (JWTAuthMiddleware_passes parse _ r s _ Hp Ht).
    destruct (ChatHTTP.decodeRequest (RequestBody r)) as [e|req] eqn:Hdec.
    + rewrite (handleChatRequest_invalid o r s _ e Hdec). repeat split.
    + rewrite (handleChatRequest_decoded o r s _ req Hdec). repeat split.
  - intros encode s answer. subst answer. unfold WorkOrderHTTP.statusHandler.
    destruct (decide (Method r = "OPTIONS")) as [Hm|Hm].
    { rewrite (CORSMiddleware_preflight _ r s NewRecorder Hm). repeat split. }
    rewrite (CORSMiddleware_passes _ r s NewRecorder Hm).
    destruct (HasPrefix (Authorization r) "Bearer ") eqn:Hp.
    2:{ rewrite JWTAuthMiddleware_rejects by (left; exact Hp). repeat split. }
    destruct (parse (TrimPrefix (Authorization r) "Bearer ")) eqn:Ht.
    2:{ rewrite JWTAuthMiddleware_rejects by (right; exact Ht). repeat split. }
    rewrite (JWTAuthMiddleware_passes parse _ r s _ Hp Ht).
    rewrite handleStatus_answer. cbn [snd].
    destruct (statusStore s !! TrimPrefix (Path r) statusPrefix); repeat split.
Qed.

End StatusService.

(** ** Routing by the voice transcript *)

Section VoiceTranscript.
Import Strings Chat Intake.

Lemma keywordDept_asciiOnly k d : keywordDept !! k = Some d -> asciiOnly k = true.
Proof.
  intros H. apply keywordDept_lookup in H. unfold keywordTable in H.
  repeat (apply elem_of_cons in H as [H | H]; [inversion H; subst; reflexivity|]).
  inversion H.
Qed.

(** X17: the department can come from the voice transcript.  When a keyword
    of a department stands in the voice transcript in some letter case, and
    no keyword of another department occurs in text and transcript, the
    response names that department, under every enumeration of the keyword
    map; the envelope still carries the text alone as its request. *)
Theorem voice_transcript_routes o req k d pre v post :
  rangeOrder (order o) ->
  keywordDept !! k = Some d ->
  VoiceTranscript req = pre +:+ v +:+ post ->
  lowerBytes v = k ->
  (forall k' d',
      keywordDept !! k' = Some d' -> d' <> d ->
      Contains (ToLower (Text req +:+ " " +:+ VoiceTranscript req)) k' = false) ->
  Intake.Department (snd (handleChatRequest o req)) = d /\
  fst (handleChatRequest o req)
  = envelopeBody (Intake.RequestID (snd (handleChatRequest o req)))
      (Intake.GuestID req) d (Text req).
Proof.
  intros Hord Hk Hvoice Hv Hother.
  assert (Hd : routeDepartment (order o) (Text req +:+ " " +:+ VoiceTranscript req) = d).
  { assert (Hocc : Contains (ToLower (Text req +:+ " " +:+ VoiceTranscript req)) k = true).
    { rewrite Hvoice.
      replace (Text req +:+ " " +:+ pre +:+ v +:+ post)
        with ((Text req +:+ " " +:+ pre) +:+ v +:+ post)
        by (rewrite !append_assoc; reflexivity).
      apply ToLower_contains; [exact Hv|]. eapply keywordDept_asciiOnly; exact Hk. }
    destruct (routeDepartment_cases (order o)
                (Text req +:+ " " +:+ VoiceTranscript req) Hord)
      as [[k' [Hk' Hc']] | [_ Hno]].
    - destruct (decide (routeDepartment (order o)
                          (Text req +:+ " " +:+ VoiceTranscript req) = d)) as [|Hne];
        [assumption|].
      rewrite (Hother _ _ Hk' Hne) in Hc'. discriminate.
    - rewrite (Hno _ _ Hk) in Hocc. discriminate. }
  unfold handleChatRequest. cbn [fst snd Intake.Department Intake.RequestID].
  rewrite Hd. split; reflexivity.
Qed.

Lemma voice_transcript_routes_witness :
  Intake.Department
    (snd (handleChatRequest
            {| nanos := 5; rnd := 3; order := reverse keywordTable |} Scenarios.spoken))
  = "IT" /\
  fst (handleChatRequest
         {| nanos := 5; rnd := 3; order := reverse keywordTable |} Scenarios.spoken)
  = envelopeBody
      (Intake.RequestID
         (snd (handleChatRequest
                 {| nanos := 5; rnd := 3; order := reverse keywordTable |}
                 Scenarios.spoken)))
      "g2" "IT" "please help".
Proof.
  apply (voice_transcript_routes
           {| nanos := 5; rnd := 3; order := reverse keywordTable |}
           Scenarios.spoken "wifi" "IT" "the " "WiFi" " is down").
  - apply reverse_rangeOrder.
  - vm_compute. reflexivity.
  - reflexivity.
  - reflexivity.
  - intros k' d' Hk' Hne. apply keywordDept_lookup in Hk'. unfold keywordTable in Hk'.
    repeat (apply elem_of_cons in Hk' as [Hk' | Hk'];
            [inversion Hk'; subst; clear Hk'; try congruence; vm_compute; reflexivity|]).
    inversion Hk'.
Defined.



End VoiceTranscript.

(** ** The chatbot *)

Section ChatbotService.
Import Strings Http Chatbot.

(** X19: the cases of [simpleNLPRouting] have a fixed priority.  A message
    with ["hello"] in it, in some letter case, is greeted whatever else it
    holds; without it, one with ["weather"] gets the weather; without both,
    one with ["time"] gets the time of day; a message with none of the three
    gets the apology. *)
Theorem simpleNLPRouting_priority now msg :
  (forall pre v post,
      msg = pre +:+ v +:+ post -> lowerBytes v = "hello" ->
      simpleNLPRouting now msg = "Hello! How can I help you today?") /\
  (Contains (ToLower msg) "hello" = false ->
   forall pre v post,
     msg = pre +:+ v +:+ post -> lowerBytes v = "weather" ->
     simpleNLPRouting now msg = "The weather is sunny.") /\
  (Contains (ToLower msg) "hello" = false ->
   Contains (ToLower msg) "weather" = false ->
   forall pre v post,
     msg = pre +:+ v +:+ post -> lowerBytes v = "time" ->
     simpleNLPRouting now msg = formatClock now) /\
  (Contains (ToLower msg) "hello" = false ->
   Contains (ToLower msg) "weather" = false ->
   Contains (ToLower msg) "time" = false ->
   simpleNLPRouting now msg = "Sorry, I didn't understand that.").
Proof.
  unfold simpleNLPRouting. repeat split.
  - intros pre v post -> Hv.
    rewrite (ToLower_contains pre v post "hello" Hv eq_refl). reflexivity.
  - intros Hh pre v post -> Hv. rewrite Hh.
    rewrite (ToLower_contains pre v post "weather" Hv eq_refl). reflexivity.
  - intros Hh Hw pre v post -> Hv. rewrite Hh, Hw.
    rewrite (ToLower_contains pre v post "time" Hv eq_refl). reflexivity.
  - intros -> -> ->. reflexivity.
Qed.

Lemma simpleNLPRouting_priority_witness :
  simpleNLPRouting (now Scenarios.morning) "HELLO, what TIME is it? And the weather?"
  = "Hello! How can I help you today?".
Proof.
  apply (proj1 (simpleNLPRouting_priority (now Scenarios.morning)
                  "HELLO, what TIME is it? And the weather?")
           "" "HELLO" ", what TIME is it? And the weather?").
  - reflexivity.
  - reflexivity.
Defined.

Lemma handleRequest_decoded o r s w req :
  decodeRequest (RequestBody r) = Some req ->
  handleRequest o r (s, w)
  = ({| statusStore :=
          <[generateID (nanos o) (rnd o) :=
              {| ID := generateID (nanos o) (rnd o); Status := "done";
                 Reply := simpleNLPRouting (now o) (Message req) |}]> (statusStore s) |},
     Write (encodeResponse
              {| ID := generateID (nanos o) (rnd o); Status := "done";
                 Reply := simpleNLPRouting (now o) (Message req) |})
       (HeaderSet "Content-Type" "application/json" w)).
Proof. intros Hdec. unfold handleRequest. rewrite Hdec. reflexivity. Qed.

(** X20: request, then status.  After a request whose body decodes, a status
    request for the ID of the response gets the very answer that the
    request got: status 200, the same headers and the same body. *)
Theorem chatbot_status_repeats_answer o r s req r' :
  decodeRequest (RequestBody r) = Some req ->
  Path r' = statusPrefix +:+ generateID (nanos o) (rnd o) ->
  finish (snd (handleStatus r' (fst (handleRequest o r (s, NewRecorder)), NewRecorder)))
  = finish (snd (handleRequest o r (s, NewRecorder))) /\
  StatusCode (finish (snd (handleRequest o r (s, NewRecorder)))) = 200.
Proof.
  intros Hdec Hpath. rewrite (handleRequest_decoded o r s NewRecorder req Hdec).
  cbn [fst snd]. unfold handleStatus. rewrite Hpath, TrimPrefix_append.
  cbn [statusStore]. rewrite lookup_insert_eq. split; reflexivity.
Qed.

Lemma chatbot_status_repeats_answer_witness :
  finish (snd (handleStatus (Scenarios.botStatus "1700000000000000000-7")
                 (fst (handleRequest Scenarios.morning
                         (Scenarios.botPost "what time is it")
                         (initial, NewRecorder)), NewRecorder)))
  = finish (snd (handleRequest Scenarios.morning (Scenarios.botPost "what time is it")
                   (initial, NewRecorder))) /\
  StatusCode (finish (snd (handleRequest Scenarios.morning
                             (Scenarios.botPost "what time is it")
                             (initial, NewRecorder)))) = 200.
Proof.
  apply (chatbot_status_repeats_answer Scenarios.morning
           (Scenarios.botPost "what time is it") initial
           {| Message := "what time is it" |}
           (Scenarios.botStatus "1700000000000000000-7")).
  - vm_compute. reflexivity.
  - reflexivity.
Defined.

(** X21: two calls that mint the same ID share one entry.  When two requests
    observe the same clock reading and random number, the entry of their
    common ID holds the response of the second, and the map is what it would
    be had the first request never been made. *)
Theorem chatbot_same_ID_overwrites o1 o2 r1 r2 s req1 req2 :
  decodeRequest (RequestBody r1) = Some req1 ->
  decodeRequest (RequestBody r2) = Some req2 ->
  nanos o1 = nanos o2 -> rnd o1 = rnd o2 ->
  statusStore (fst (handleRequest o2 r2
                      (fst (handleRequest o1 r1 (s, NewRecorder)), NewRecorder)))
  !! generateID (nanos o1) (rnd o1)
  = Some {| ID := generateID (nanos o1) (rnd o1); Status := "done";
            Reply := simpleNLPRouting (now o2) (Message req2) |} /\
  fst (handleRequest o2 r2 (fst (handleRequest o1 r1 (s, NewRecorder)), NewRecorder))
  = fst (handleRequest o2 r2 (s, NewRecorder)).
Proof.
  intros Hd1 Hd2 Hn Hr.
  rewrite (handleRequest_decoded o1 r1 s NewRecorder req1 Hd1). cbn [fst].
  rewrite !(handleRequest_decoded o2 r2 _ NewRecorder req2 Hd2). cbn [fst statusStore].
  rewrite Hn, Hr. split.
  - apply lookup_insert_eq.
  - rewrite insert_insert_eq. reflexivity.
Qed.

Lemma chatbot_same_ID_overwrites_witness :
  statusStore (fst (handleRequest Scenarios.evening (Scenarios.botPost "hello there")
                      (fst (handleRequest Scenarios.morning
                              (Scenarios.botPost "what time is it")
                              (initial, NewRecorder)), NewRecorder)))
  !! generateID (nanos Scenarios.morning) (rnd Scenarios.morning)
  = Some {| ID := generateID (nanos Scenarios.morning) (rnd Scenarios.morning);
            Status := "done";
            Reply := simpleNLPRouting (now Scenarios.evening) "hello there" |} /\
  fst (handleRequest Scenarios.evening (Scenarios.botPost "hello there")
         (fst (handleRequest Scenarios.morning (Scenarios.botPost "what time is it")
                 (initial, NewRecorder)), NewRecorder))
  = fst (handleRequest Scenarios.evening (Scenarios.botPost "hello there")
           (initial, NewRecorder)).
Proof.
  apply (chatbot_same_ID_overwrites Scenarios.morning Scenarios.evening
           (Scenarios.botPost "what time is it") (Scenarios.botPost "hello there")
           initial {| Message := "what time is it" |} {| Message := "hello there" |}).
  - vm_compute. reflexivity.
  - vm_compute. reflexivity.
  - reflexivity.
  - reflexivity.
Defined.

End ChatbotService.

(** ** Bodies that are JSON but no envelope *)

Section StrayBodies.
Import Strings Json WorkOrders.

Lemma storeMember_unknown acc key v :
  matchesField key "requestID" = false -> matchesField key "guestID" = false ->
  matchesField key "department" = false -> matchesField key "request" = false ->
  storeMember acc (key, v) = acc.
Proof.
  intros H1 H2 H3 H4. destruct acc as [p err]. unfold storeMember.
  rewrite H1, H2, H3, H4. reflexivity.
Qed.

(** X22: the consumer skips members it has no field for.  A body that is a
    JSON object none of whose members names a field of the envelope decodes
    without error to empty fields; when the insert succeeds, the work order
    built from it, with empty guest ID, department and request, is filed
    under the empty request ID, where a status request for the bare path
    prefix finds it. *)
Theorem stray_object_filed_under_empty_ID s it msg members id :
  received it = Some msg ->
  decode (Body msg) = Some (JObject members) ->
  (forall key v,
      (key, v) ∈ members ->
      matchesField key "requestID" = false /\ matchesField key "guestID" = false /\
      matchesField key "department" = false /\ matchesField key "request" = false) ->
  inserted it = Some id ->
  Unmarshal (Body msg) = inr Payload.zero /\
  handleStatus (iteration s it) statusPrefix
  = OK (newWorkOrder Payload.zero (now1 it) (now2 it)).
Proof.
  intros Hrecv Hdec Hnone Hins.
  assert (Hfold : forall acc, fold_left storeMember members acc = acc).
  { clear Hdec. induction members as [|[key v] members IH]; intros acc; [reflexivity|].
    cbn [fold_left].
    destruct (Hnone key v) as (H1 & H2 & H3 & H4); [left|].
    rewrite (storeMember_unknown acc key v H1 H2 H3 H4).
    apply IH. intros key' v' Hin. apply (Hnone key' v'). right. exact Hin. }
  assert (Hun : Unmarshal (Body msg) = inr Payload.zero).
  { unfold Unmarshal. rewrite Hdec, Hfold. reflexivity. }
  split; [exact Hun|].
  unfold handleStatus. change (TrimPrefix statusPrefix statusPrefix) with "".
  rewrite iteration_statusStore, Hrecv, Hun, Hins.
  cbn [Payload.RequestID Payload.zero]. rewrite lookup_insert_eq. reflexivity.
Qed.

Lemma stray_object_filed_under_empty_ID_witness :
  Unmarshal ("{" +:+ Fmt.quoted "room" +:+ ":" +:+ Fmt.quoted "12" +:+ "}")
  = inr Payload.zero /\
  handleStatus (iteration initial Scenarios.stray) statusPrefix
  = OK (newWorkOrder Payload.zero 400%Z 401%Z).
Proof.
  apply (stray_object_filed_under_empty_ID initial Scenarios.stray
           {| MessageID := 3;
              Body := "{" +:+ Fmt.quoted "room" +:+ ":" +:+ Fmt.quoted "12" +:+ "}" |}
           [("room", JString "12")] 3%N).
  - reflexivity.
  - vm_compute. reflexivity.
  - intros key v Hin. apply list_elem_of_singleton in Hin. inversion Hin; subst.
    repeat split; reflexivity.
  - reflexivity.
Defined.

End StrayBodies.
